(** * drone-buildah: the plugin of docker.go, and its variant

    A shallow embedding of the Go package [docker] of the repository
    (src/docker.go) and of the second copy of that package that the
    repository carries (the Go text inside src/debug.sh, called "the
    variant" below), with the properties of the argument builder, of the
    proxy build-arg injection and of the command sequencer.

    Go strings are byte strings: they are [string]s here, one [ascii] per
    byte.  Slices that are only appended to are [list]s.  The process
    environment, the file system, the child processes and the standard
    output are threaded explicitly through a state. *)

From Stdlib Require Import List String Ascii Bool Arith NArith Lia.
Import ListNotations.
Open Scope string_scope.
Open Scope list_scope.

Set Implicit Arguments.

(** Go's [+] on strings; [++] stays the append of slices. *)
Infix "+++" := String.append (right associativity, at level 60).

(** ** Go's [strings] and [fmt] as far as the package uses them *)

(** [len(s) > 0] *)
Definition nonempty (s : string) : bool := (0 <? String.length s)%nat.

(** [strings.HasPrefix(s, prefix)] *)
Definition HasPrefix (s pre : string) : bool := String.prefix pre s.

(** [strings.Join(elems, sep)] *)
Definition Join (elems : list string) (sep : string) : string :=
  String.concat sep elems.

(** The ASCII path of [strings.ToUpper]: every byte is below
    [utf8.RuneSelf] (0x80), and the bytes ['a'..'z'] lose 32. *)
Definition isASCII (s : string) : bool :=
  forallb (fun c => (nat_of_ascii c <? 128)%nat) (list_ascii_of_string s).

Definition upperByte (c : ascii) : ascii :=
  let n := nat_of_ascii c in
  if ((97 <=? n) && (n <=? 122))%nat then ascii_of_nat (n - 32) else c.

Fixpoint mapBytes (f : ascii -> ascii) (s : string) : string :=
  match s with
  | EmptyString => EmptyString
  | String c r => String (f c) (mapBytes f r)
  end.

(** A double quote, for the text of storage.conf. *)
Definition dq : string := String "034"%char EmptyString.

(** A line feed. *)
Definition nl : string := String "010"%char EmptyString.

(** ** Errors *)

(** A Go [error]: one that a library call returned (it carries its
    message), or one made by [fmt.Errorf]: the formatted text alone when
    the error is printed with [%s], and with the error it wraps when the
    verb is [%w]. *)
Inductive error : Type :=
| LibError (msg : string)
| Errorf (msg : string)
| ErrorfW (msg : string) (wrapped : error).

(** [err.Error()] *)
Definition Error (e : error) : string :=
  match e with
  | LibError m => m
  | Errorf m => m
  | ErrorfW m _ => m
  end.

(** [errors.Unwrap(err)] *)
Definition Unwrap (e : error) : option error :=
  match e with
  | ErrorfW _ w => Some w
  | _ => None
  end.

(** ** The data model (the [type] block of both files) *)

Record Login : Type := {
  Registry : string;
  Username : string;
  Password : string;
  Email : string;
  Config : string
}.

Record Build : Type := {
  Remote : string;
  Name : string;
  Dockerfile : string;
  Context : string;
  Tags : list string;
  Args : list string;
  ArgsEnv : list string;
  Target : string;
  Squash : bool;
  Pull : bool;
  CacheFrom : list string;
  Compress : bool;
  Repo : string;
  LabelSchema : list string;
  AutoLabel : bool;
  Labels : list string;
  Link : string;
  NoCache : bool;
  AddHost : list string;
  Quiet : bool;
  S3CacheDir : string;
  S3Bucket : string;
  S3Endpoint : string;
  S3Region : string;
  S3Key : string;
  S3Secret : string;
  S3UseSSL : bool;
  Layers : bool
}.

(** [build.Args = args]: the only assignment to a field of [Build] in the
    package. *)
Definition set_Args (build : Build) (args : list string) : Build :=
  {| Remote := Remote build; Name := Name build;
     Dockerfile := Dockerfile build; Context := Context build;
     Tags := Tags build; Args := args; ArgsEnv := ArgsEnv build;
     Target := Target build; Squash := Squash build; Pull := Pull build;
     CacheFrom := CacheFrom build; Compress := Compress build;
     Repo := Repo build; LabelSchema := LabelSchema build;
     AutoLabel := AutoLabel build; Labels := Labels build;
     Link := Link build; NoCache := NoCache build;
     AddHost := AddHost build; Quiet := Quiet build;
     S3CacheDir := S3CacheDir build; S3Bucket := S3Bucket build;
     S3Endpoint := S3Endpoint build; S3Region := S3Region build;
     S3Key := S3Key build; S3Secret := S3Secret build;
     S3UseSSL := S3UseSSL build; Layers := Layers build |}.

(** An [*exec.Cmd] as far as the package looks at it: its [Args], which
    [exec.Command(name, arg...)] sets to [name] followed by [arg]. *)
Record Cmd : Type := { cmdArgs : list string }.

Definition exec_Command (name : string) (arg : list string) : Cmd :=
  {| cmdArgs := name :: arg |}.

Definition buildahExe : string := "buildah".

(** ** What the package takes from outside

    The process environment is a total function: [os.Getenv] gives the
    empty string for a variable that is not set. *)
Definition Env : Type := string -> string.

Definition Getenv (env : Env) (key : string) : string := env key.

Definition Setenv (key value : string) (env : Env) : Env :=
  fun k => if String.eqb k key then value else env k.

(** The calls into Go's library and the operating system whose results the
    package does not determine.  [World] is everything outside the
    process; a call moves it and may return an error.

    - [unicode_ToUpper] is [strings.Map(unicode.ToUpper, s)], which
      [strings.ToUpper] uses only for a string with a byte of 0x80 or more;
    - [filepath_Join] is [filepath.Join];
    - [now_RFC3339] is [time.Now().Format(time.RFC3339)];
    - [user_Current] gives the home directory of [user.Current()]. *)
Class Runtime : Type := {
  World : Type;
  unicode_ToUpper : string -> string;
  filepath_Join : list string -> string;
  now_RFC3339 : World -> string;
  os_MkdirAll : string -> N -> World -> World * option error;
  ioutil_WriteFile : string -> string -> N -> World -> World * option error;
  user_Current : World -> World * (error + string);
  cmd_Run : Cmd -> World -> World * option error
}.

Section Proxy.

Context {R : Runtime}.

(** [strings.ToUpper] *)
Definition ToUpper (s : string) : string :=
  if isASCII s then mapBytes upperByte s else unicode_ToUpper s.

(** docker.go 300-308 *)
Definition getProxyValue (env : Env) (key : string) : string :=
  let value := Getenv env key in
  if nonempty value then value
  else Getenv env (ToUpper key).

(** docker.go 310-320: the loop returns at the first arg with one of the
    two prefixes. *)
Definition hasProxyBuildArg (build : Build) (key : string) : bool :=
  let keyUpper := ToUpper key in
  existsb (fun s => HasPrefix s key || HasPrefix s keyUpper) (Args build).

(** docker.go 291-298; [fmt.Sprintf("%s=%s", k, v)] is [k +++ "=" +++ v]. *)
Definition addProxyValue (env : Env) (build : Build) (key : string) : Build :=
  let value := getProxyValue env key in
  if nonempty value && negb (hasProxyBuildArg build key) then
    let build := set_Args build (Args build ++ [key +++ "=" +++ value]) in
    let build := set_Args build (Args build ++ [ToUpper key +++ "=" +++ value]) in
    build
  else build.

(** docker.go 285-289 *)
Definition addProxyBuildArgs (env : Env) (build : Build) : Build :=
  let build := addProxyValue env build "http_proxy" in
  let build := addProxyValue env build "https_proxy" in
  let build := addProxyValue env build "no_proxy" in
  build.

End Proxy.

(** ** The argument builder *)

(** [s != EmptyString], Go's test of a string against the empty one. *)
Definition isSet (s : string) : bool := negb (String.eqb s EmptyString).

Section Builder.

Context {R : Runtime}.

(** The body of [commandBuild] after its first statement: docker.go
    201-281, the same text as lines 217-297 of the variant.  [args] is the
    slice the first statement made, [now] the formatted [time.Now()].
    [build] is the function's own copy of the record (it is passed by
    value), so the injection of the [ArgsEnv] entries stays inside. *)
Definition buildArgs (args : list string) (now : string) (env : Env)
    (build : Build) : list string :=
  let args := if Squash build then args ++ ["--squash"] else args in
  let args := if Compress build then args ++ ["--compress"] else args in
  let args := if Pull build then args ++ ["--pull=true"] else args in
  let args := if NoCache build then args ++ ["--no-cache"] else args in
  let args :=
    fold_left (fun args arg => args ++ ["--cache-from"; arg])
              (CacheFrom build) args in
  let build :=
    fold_left (fun build arg => addProxyValue env build arg)
              (ArgsEnv build) build in
  let args :=
    fold_left (fun args arg => args ++ ["--build-arg"; arg])
              (Args build) args in
  let args :=
    fold_left (fun args host => args ++ ["--add-host"; host])
              (AddHost build) args in
  let args :=
    if isSet (Target build) then args ++ ["--target"; Target build]
    else args in
  let args := if Quiet build then args ++ ["--quiet"] else args in
  let args :=
    if Layers build then
      let args := args ++ ["--layers=true"] in
      if isSet (S3CacheDir build) then
        let args := args ++ ["--s3-local-cache-dir"; S3CacheDir build] in
        let args :=
          if isSet (S3Bucket build)
          then args ++ ["--s3-bucket"; S3Bucket build] else args in
        let args :=
          if isSet (S3Endpoint build)
          then args ++ ["--s3-endpoint"; S3Endpoint build] else args in
        let args :=
          if isSet (S3Region build)
          then args ++ ["--s3-region"; S3Region build] else args in
        let args :=
          if isSet (S3Key build)
          then args ++ ["--s3-key"; S3Key build] else args in
        let args :=
          if isSet (S3Secret build)
          then args ++ ["--s3-secret"; S3Secret build] else args in
        let args :=
          if S3UseSSL build then args ++ ["--s3-use-ssl=true"] else args in
        args
      else args
    else args in
  let args :=
    if AutoLabel build then
      let labelSchema :=
        [ "created=" +++ now;
          "revision=" +++ Name build;
          "source=" +++ Remote build;
          "url=" +++ Link build ] in
      let labelPrefix := "org.opencontainers.image" in
      let labelSchema :=
        if (0 <? List.length (LabelSchema build))%nat
        then labelSchema ++ LabelSchema build else labelSchema in
      fold_left
        (fun args label => args ++ ["--label"; labelPrefix +++ "." +++ label])
        labelSchema args
    else args in
  let args :=
    if (0 <? List.length (Labels build))%nat then
      fold_left (fun args label => args ++ ["--label"; label])
                (Labels build) args
    else args in
  let args := args ++ ["-t"; Name build] in
  let args := args ++ [Context build] in
  args.

End Builder.

(** ** The state of a run, and sequencing with early return *)

Section Machine.

Context {R : Runtime}.

(** The process environment, the world outside, and what the plugin
    itself has written to its standard output (the children write to the
    same stream; that is part of [World]). *)
Record State : Type := {
  st_env : Env;
  st_world : World;
  st_stdout : list string
}.

(** A statement either goes on with a value or makes the function return
    the error. *)
Inductive result (A : Type) : Type :=
| Go (a : A)
| Return (e : error).
Arguments Go {A} a.
Arguments Return {A} e.

Definition M (A : Type) : Type := State -> State * result A.

Definition ret {A : Type} (a : A) : M A := fun s => (s, Go a).

Definition bind {A B : Type} (m : M A) (k : A -> M B) : M B :=
  fun s =>
    match m s with
    | (s', Go a) => k a s'
    | (s', Return e) => (s', Return e)
    end.

Definition returnErr {A : Type} (e : error) : M A := fun s => (s, Return e).

(** The state with the world moved to [w]. *)
Definition moved (w : World) (s : State) : State :=
  {| st_env := st_env s; st_world := w; st_stdout := st_stdout s |}.

(** The state with [text] written to the standard output. *)
Definition printed (text : string) (s : State) : State :=
  {| st_env := st_env s; st_world := st_world s;
     st_stdout := st_stdout s ++ [text] |}.

(** A call that moves the world and gives a value back. *)
Definition call {A : Type} (f : World -> World * A) : M A :=
  fun s => let (w, a) := f (st_world s) in (moved w s, Go a).

(** [os.Setenv(key, value)] *)
Definition os_Setenv (key value : string) : M unit :=
  fun s =>
    ({| st_env := Setenv key value (st_env s); st_world := st_world s;
        st_stdout := st_stdout s |}, Go tt).

(** [fmt.Printf], [fmt.Println] and [fmt.Fprintf(os.Stdout, ...)] with the
    text already formatted. *)
Definition fmt_Print (text : string) : M unit :=
  fun s => (printed text s, Go tt).

Definition environ : M Env := fun s => (s, Go (st_env s)).

Definition time_Now : M string := fun s => (s, Go (now_RFC3339 (st_world s))).

(** [for _, x := range l { body }] *)
Fixpoint forEach {A : Type} (l : list A) (body : A -> M unit) : M unit :=
  match l with
  | [] => ret tt
  | x :: r => bind (body x) (fun _ => forEach r body)
  end.

(** What a function of result type [error] hands to its caller. *)
Definition returned (m : M unit) (s : State) : State * option error :=
  match m s with
  | (s', Go _) => (s', None)
  | (s', Return e) => (s', Some e)
  end.

(** docker.go 339-341 *)
Definition trace (cmd : Cmd) : M unit :=
  fmt_Print ("+ " +++ Join (cmdArgs cmd) " " +++ nl).

End Machine.

Arguments Go {A} a.
Arguments Return {A} e.

Notation "x <- m ;; k" := (bind m (fun x => k))
  (at level 61, m at next level, right associativity).
Notation "m ;; k" := (bind m (fun _ => k))
  (at level 61, right associativity).

(** ** src/docker.go *)

Module DockerGo.

Record Plugin : Type := {
  pLogin : Login;   (* field Login *)
  pBuild : Build;   (* field Build *)
  Dryrun : bool;
  Cleanup : bool
}.

(** [p.Build = build], what a write through [&p.Build] does to [p]. *)
Definition set_Build (p : Plugin) (build : Build) : Plugin :=
  {| pLogin := pLogin p; pBuild := build;
     Dryrun := Dryrun p; Cleanup := Cleanup p |}.

Section Code.

Context {R : Runtime}.

(** docker.go 173-180 *)
Definition commandLogin (login : Login) : Cmd :=
  let args := ["--storage-driver"; "vfs"; "login";
               "-u"; Username login; "-p"; Password login] in
  let args := if isSet (Email login) then args ++ ["-e"; Email login]
              else args in
  let args := args ++ [Registry login] in
  exec_Command buildahExe args.

(** docker.go 182-184 *)
Definition commandPull (repo : string) : Cmd :=
  exec_Command buildahExe ["--storage-driver"; "vfs"; "pull"; repo].

(** docker.go 186-188 *)
Definition commandVersion : Cmd :=
  exec_Command buildahExe ["--storage-driver"; "vfs"; "version"].

(** docker.go 190-192 *)
Definition commandInfo : Cmd :=
  exec_Command buildahExe ["--storage-driver"; "vfs"; "info"].

(** docker.go 194-283 *)
Definition commandBuild (now : string) (env : Env) (build : Build) : Cmd :=
  let args := ["--storage-driver"; "vfs"; "bud"; "-f"; Dockerfile build] in
  exec_Command buildahExe (buildArgs args now env build).

(** docker.go 322-328; [fmt.Sprintf("%s:%s", r, t)] is [r +++ ":" +++ t]. *)
Definition commandTag (build : Build) (tag : string) : Cmd :=
  let source := Name build in
  let target := Repo build +++ ":" +++ tag in
  exec_Command buildahExe ["--storage-driver"; "vfs"; "tag"; source; target].

(** docker.go 330-333 *)
Definition commandPush (build : Build) (tag : string) : Cmd :=
  let target := Repo build +++ ":" +++ tag in
  exec_Command buildahExe ["--storage-driver"; "vfs"; "push"; target].

(** docker.go 335-337 *)
Definition commandRmi (tag : string) : Cmd :=
  exec_Command buildahExe ["--storage-driver"; "vfs"; "rmi"; tag].

(** docker.go 146-160; the modes 0700 and 0600 are 448 and 384. *)
Definition createAuthConfig (config tmpDir : string) : M unit :=
  let authDir := filepath_Join [tmpDir; "auth"] in
  err <- call (os_MkdirAll authDir 448) ;;
  match err with
  | Some err =>
      returnErr (ErrorfW ("error creating auth directory: " +++ Error err) err)
  | None =>
      let authPath := filepath_Join [authDir; "auth.json"] in
      err <- call (ioutil_WriteFile authPath config 384) ;;
      match err with
      | Some err =>
          returnErr (ErrorfW ("error writing auth.json: " +++ Error err) err)
      | None =>
          os_Setenv "REGISTRY_AUTH_FILE" authPath ;;
          fmt_Print ("Config written to " +++ authPath +++ nl)
      end
  end.

(** docker.go 162-171 *)
Definition dockerLogin (login : Login) : M unit :=
  let cmd := commandLogin login in
  err <- call (cmd_Run cmd) ;;
  match err with
  | Some err =>
      returnErr (ErrorfW ("error authenticating: " +++ Error err) err)
  | None => ret tt
  end.

(** docker.go 108-129: the list [cmds], from the plugin as it is after
    [addProxyBuildArgs(&p.Build)]. *)
Definition Exec_cmds (now : string) (env : Env) (p : Plugin) : list Cmd :=
  let cmds := [] in
  let cmds := cmds ++ [commandVersion] in
  let cmds := cmds ++ [commandInfo] in
  let cmds :=
    fold_left (fun cmds img => cmds ++ [commandPull img])
              (CacheFrom (pBuild p)) cmds in
  let cmds := cmds ++ [commandBuild now env (pBuild p)] in
  let cmds :=
    fold_left
      (fun cmds tag =>
         let cmds := cmds ++ [commandTag (pBuild p) tag] in
         if negb (Dryrun p) then cmds ++ [commandPush (pBuild p) tag]
         else cmds)
      (Tags (pBuild p)) cmds in
  let cmds :=
    if Cleanup p then cmds ++ [commandRmi (Name (pBuild p))] else cmds in
  cmds.

(** docker.go 131-143: the loop that runs the commands. *)
Definition Exec_run (cmds : list Cmd) : M unit :=
  forEach cmds (fun cmd =>
    trace cmd ;;
    err <- call (cmd_Run cmd) ;;
    match err with
    | Some err =>
        returnErr
          (ErrorfW ("command failed: " +++ Join (cmdArgs cmd) " " +++ nl
                    +++ "error: " +++ Error err) err)
    | None => ret tt
    end).

(** docker.go 78-83 *)
Definition storageConf (tmpDir : string) : string :=
  nl +++ "[storage]" +++ nl
  +++ "driver = " +++ dq +++ "vfs" +++ dq +++ nl
  +++ "runroot = " +++ dq +++ tmpDir +++ "/runroot" +++ dq +++ nl
  +++ "graphroot = " +++ dq +++ tmpDir +++ "/graphroot" +++ dq +++ nl.

(** docker.go 67-144; the modes 0755 and 0644 are 493 and 420. *)
Definition Exec_body (p : Plugin) : M unit :=
  os_Setenv "STORAGE_DRIVER" "vfs" ;;
  let tmpDir := "/tmp/buildah-plugin" in
  err <- call (os_MkdirAll tmpDir 493) ;;
  match err with
  | Some err =>
      returnErr
        (ErrorfW ("error creating temporary directory: " +++ Error err) err)
  | None =>
      let storageConfPath := filepath_Join [tmpDir; "storage.conf"] in
      err <- call (ioutil_WriteFile storageConfPath (storageConf tmpDir) 420) ;;
      match err with
      | Some err =>
          returnErr (ErrorfW ("error writing storage.conf: " +++ Error err) err)
      | None =>
          os_Setenv "CONTAINERS_STORAGE_CONF" storageConfPath ;;
          (if isSet (Config (pLogin p))
           then createAuthConfig (Config (pLogin p)) tmpDir
           else ret tt) ;;
          (if isSet (Password (pLogin p))
           then dockerLogin (pLogin p)
           else ret tt) ;;
          env <- environ ;;
          let p := set_Build p (addProxyBuildArgs env (pBuild p)) in
          now <- time_Now ;;
          let cmds := Exec_cmds now env p in
          Exec_run cmds
      end
  end.

Definition Exec (p : Plugin) (s : State) : State * option error :=
  returned (Exec_body p) s.

End Code.

End DockerGo.

(** ** The variant: the Go text of src/debug.sh (lines 13-365) *)

Module Variant.

Record Plugin : Type := {
  pLogin : Login;   (* field Login *)
  pBuild : Build;   (* field Build *)
  SkipPush : bool;
  Cleanup : bool
}.

Definition set_Build (p : Plugin) (build : Build) : Plugin :=
  {| pLogin := pLogin p; pBuild := build;
     SkipPush := SkipPush p; Cleanup := Cleanup p |}.

(** A horizontal tab, for the text of storage.conf. *)
Definition tab : string := String "009"%char EmptyString.

(** [args[i]] where the code has checked [len(args) > i]. *)
Definition index (args : list string) (i : nat) : string :=
  nth i args EmptyString.

(** debug.sh 194-196 *)
Definition isCommandPull (args : list string) : bool :=
  (2 <? List.length args)%nat && String.eqb (index args 1) "pull".

(** debug.sh 355-357 *)
Definition isCommandPrune (args : list string) : bool :=
  (3 <? List.length args)%nat && String.eqb (index args 2) "prune".

(** debug.sh 359-361 *)
Definition isCommandRmi (args : list string) : bool :=
  (2 <? List.length args)%nat && String.eqb (index args 1) "rmi".

Section Code.

Context {R : Runtime}.

(** debug.sh 185-192 *)
Definition commandLogin (login : Login) : Cmd :=
  exec_Command buildahExe
    ["login"; "-u"; Username login; "-p"; Password login; Registry login].

(** debug.sh 198-200 *)
Definition commandPull (repo : string) : Cmd :=
  exec_Command buildahExe ["pull"; "--storage-driver"; "vfs"; repo].

(** debug.sh 202-204 *)
Definition commandVersion : Cmd := exec_Command buildahExe ["version"].

(** debug.sh 206-208 *)
Definition commandInfo : Cmd := exec_Command buildahExe ["info"].

(** debug.sh 210-299 *)
Definition commandBuild (now : string) (env : Env) (build : Build) : Cmd :=
  let args := ["bud"; "--format"; "docker"; "-f"; Dockerfile build] in
  exec_Command buildahExe (buildArgs args now env build).

(** debug.sh 338-344 *)
Definition commandTag (build : Build) (tag : string) : Cmd :=
  let source := Name build in
  let target := Repo build +++ ":" +++ tag in
  exec_Command buildahExe ["tag"; source; target].

(** debug.sh 346-349 *)
Definition commandPush (build : Build) (tag : string) : Cmd :=
  let target := Repo build +++ ":" +++ tag in
  exec_Command buildahExe ["push"; target].

(** debug.sh 351-353 *)
Definition commandRmi (tag : string) : Cmd :=
  exec_Command buildahExe ["rmi"; tag].

(** debug.sh 139-160 *)
Definition Exec_cmds (now : string) (env : Env) (p : Plugin) : list Cmd :=
  let cmds := [] in
  let cmds := cmds ++ [commandVersion] in
  let cmds := cmds ++ [commandInfo] in
  let cmds :=
    fold_left (fun cmds img => cmds ++ [commandPull img])
              (CacheFrom (pBuild p)) cmds in
  let cmds := cmds ++ [commandBuild now env (pBuild p)] in
  let cmds :=
    fold_left
      (fun cmds tag =>
         let cmds := cmds ++ [commandTag (pBuild p) tag] in
         if negb (SkipPush p) then cmds ++ [commandPush (pBuild p) tag]
         else cmds)
      (Tags (pBuild p)) cmds in
  let cmds :=
    if Cleanup p then cmds ++ [commandRmi (Name (pBuild p))] else cmds in
  cmds.

(** debug.sh 162-180 *)
Definition Exec_run (cmds : list Cmd) : M unit :=
  forEach cmds (fun cmd =>
    trace cmd ;;
    err <- call (cmd_Run cmd) ;;
    match err with
    | Some err =>
        if isCommandPull (cmdArgs cmd) then
          fmt_Print ("Could not pull cache-from image "
                 +++ index (cmdArgs cmd) 2 +++ ". Ignoring..." +++ nl)
        else if isCommandPrune (cmdArgs cmd) then
          fmt_Print ("Could not prune system containers. Ignoring..." +++ nl)
        else if isCommandRmi (cmdArgs cmd) then
          fmt_Print ("Could not remove image "
                 +++ index (cmdArgs cmd) 2 +++ ". Ignoring..." +++ nl)
        else returnErr err
    | None => ret tt
    end).

(** debug.sh 116-125: the login inside [Exec]. *)
Definition Exec_login (p : Plugin) : M unit :=
  if isSet (Password (pLogin p)) then
    let cmd := commandLogin (pLogin p) in
    err <- call (cmd_Run cmd) ;;
    match err with
    | Some err => returnErr (Errorf ("error authenticating: " +++ Error err))
    | None => ret tt
    end
  else ret tt.

(** debug.sh 93-96 *)
Definition storageConf : string :=
  "[storage]" +++ nl
  +++ tab +++ "driver = " +++ dq +++ "vfs" +++ dq +++ nl
  +++ tab +++ "runroot = " +++ dq +++ "/tmp/buildah-run-$(id -u)" +++ dq +++ nl
  +++ tab +++ "graphroot = " +++ dq +++ "/tmp/buildah-graph-$(id -u)" +++ dq.

(** debug.sh 80-183; the modes 0700 and 0600 are 448 and 384. *)
Definition Exec_body (p : Plugin) : M unit :=
  user <- call user_Current ;;
  match user with
  | inl err => returnErr (Errorf ("error getting current user: " +++ Error err))
  | inr HomeDir =>
  let storageConfDir := filepath_Join [HomeDir; ".config"; "containers"] in
  err <- call (os_MkdirAll storageConfDir 448) ;;
  match err with
  | Some err =>
      returnErr
        (Errorf ("error creating storage config directory: " +++ Error err))
  | None =>
  let storageConfPath := filepath_Join [storageConfDir; "storage.conf"] in
  err <- call (ioutil_WriteFile storageConfPath storageConf 384) ;;
  match err with
  | Some err => returnErr (Errorf ("error writing storage.conf: " +++ Error err))
  | None =>
  os_Setenv "STORAGE_DRIVER" "vfs" ;;
  os_Setenv "BUILDAH_ISOLATION" "rootless" ;;
  os_Setenv "CONTAINERS_STORAGE_CONF" storageConfPath ;;
  (if isSet (Config (pLogin p)) then
     let authPath := filepath_Join [storageConfDir; "auth.json"] in
     err <- call (ioutil_WriteFile authPath (Config (pLogin p)) 384) ;;
     match err with
     | Some err => returnErr (Errorf ("error writing auth.json: " +++ Error err))
     | None => fmt_Print ("Config written to " +++ authPath +++ nl)
     end
   else ret tt) ;;
  Exec_login p ;;
  (if isSet (Password (pLogin p)) then
     fmt_Print ("Detected registry credentials" +++ nl)
   else if isSet (Config (pLogin p)) then
     fmt_Print ("Detected registry credentials file" +++ nl)
   else
     fmt_Print ("Registry credentials or Docker config not provided. "
            +++ "Guest mode enabled." +++ nl)) ;;
  env <- environ ;;
  let p := set_Build p (addProxyBuildArgs env (pBuild p)) in
  now <- time_Now ;;
  let cmds := Exec_cmds now env p in
  Exec_run cmds
  end end end.

Definition Exec (p : Plugin) (s : State) : State * option error :=
  returned (Exec_body p) s.

End Code.

End Variant.

(** ** Notions used to state the properties *)

(** [flag x1 flag x2 ...]: one flag per entry of [l], in the order of [l]. *)
Definition flags (flag : string) (l : list string) : list string :=
  flat_map (fun x => [flag; x]) l.

(** The tokens [l] when [c] holds, none otherwise. *)
Definition when (c : bool) (l : list string) : list string :=
  if c then l else [].

(** [build'] has the fields of [build], [Args] apart. *)
Definition sameButArgs (build build' : Build) : Prop :=
  Remote build' = Remote build /\ Name build' = Name build /\
  Dockerfile build' = Dockerfile build /\ Context build' = Context build /\
  Tags build' = Tags build /\ ArgsEnv build' = ArgsEnv build /\
  Target build' = Target build /\ Squash build' = Squash build /\
  Pull build' = Pull build /\ CacheFrom build' = CacheFrom build /\
  Compress build' = Compress build /\ Repo build' = Repo build /\
  LabelSchema build' = LabelSchema build /\
  AutoLabel build' = AutoLabel build /\ Labels build' = Labels build /\
  Link build' = Link build /\ NoCache build' = NoCache build /\
  AddHost build' = AddHost build /\ Quiet build' = Quiet build /\
  S3CacheDir build' = S3CacheDir build /\ S3Bucket build' = S3Bucket build /\
  S3Endpoint build' = S3Endpoint build /\ S3Region build' = S3Region build /\
  S3Key build' = S3Key build /\ S3Secret build' = S3Secret build /\
  S3UseSSL build' = S3UseSSL build /\ Layers build' = Layers build.

(** The first [n] bytes of [s]. *)
Definition leading (n : nat) (s : string) : string := String.substring 0 n s.

(** Equality of two strings up to the case of the letters a-z. *)
Definition sameLetters (a b : string) : bool :=
  String.eqb (mapBytes upperByte a) (mapBytes upperByte b).

Section Notions.

Context {R : Runtime}.

(** The record inside [commandBuild] once the loop over [ArgsEnv] is
    done. *)
Definition injected (env : Env) (build : Build) : Build :=
  fold_left (fun build arg => addProxyValue env build arg)
            (ArgsEnv build) build.

(** What [addProxyValue] appends for [key] to a list [args] of build
    args. *)
Definition proxyPair (env : Env) (args : list string) (key : string)
    : list string :=
  let value := getProxyValue env key in
  when (nonempty value
        && negb (existsb (fun s => HasPrefix s key || HasPrefix s (ToUpper key))
                         args))
       [key +++ "=" +++ value; ToUpper key +++ "=" +++ value].

(** The entries that the keys [keys], taken in order, add after [args]. *)
Fixpoint envDerived (env : Env) (args : list string) (keys : list string)
    : list string :=
  match keys with
  | [] => []
  | key :: keys' =>
      let new := proxyPair env args key in
      new ++ envDerived env (args ++ new) keys'
  end.

(** A key is settled in a build when [addProxyValue] has nothing to do for
    it: no value in the environment, or an arg with the key already. *)
Definition settled (env : Env) (build : Build) (key : string) : Prop :=
  nonempty (getProxyValue env key) = false
  \/ hasProxyBuildArg build key = true.

(** The single flags of docker.go 201-212. *)
Definition switches (build : Build) : list string :=
  when (Squash build) ["--squash"] ++ when (Compress build) ["--compress"]
  ++ when (Pull build) ["--pull=true"] ++ when (NoCache build) ["--no-cache"].

(** The flags of docker.go 225-254. *)
Definition targetQuietLayers (build : Build) : list string :=
  when (isSet (Target build)) ["--target"; Target build]
  ++ when (Quiet build) ["--quiet"]
  ++ when (Layers build)
       ("--layers=true" ::
        when (isSet (S3CacheDir build))
          (["--s3-local-cache-dir"; S3CacheDir build]
           ++ when (isSet (S3Bucket build)) ["--s3-bucket"; S3Bucket build]
           ++ when (isSet (S3Endpoint build))
                ["--s3-endpoint"; S3Endpoint build]
           ++ when (isSet (S3Region build)) ["--s3-region"; S3Region build]
           ++ when (isSet (S3Key build)) ["--s3-key"; S3Key build]
           ++ when (isSet (S3Secret build)) ["--s3-secret"; S3Secret build]
           ++ when (S3UseSSL build) ["--s3-use-ssl=true"])).

(** The four labels that [commandBuild] makes itself. *)
Definition baseLabels (now : string) (build : Build) : list string :=
  [ "created=" +++ now; "revision=" +++ Name build;
    "source=" +++ Remote build; "url=" +++ Link build ].

(** The value of the [--label] flag for a label of the schema. *)
Definition namespaced (label : string) : string :=
  "org.opencontainers.image" +++ "." +++ label.

(** The subcommand of a command of docker.go: the token after
    [buildah --storage-driver vfs]. *)
Definition subcommand (cmd : Cmd) : string := nth 3 (cmdArgs cmd) EmptyString.

(** The line that [trace] writes for a command. *)
Definition traceLine (cmd : Cmd) : string :=
  "+ " +++ Join (cmdArgs cmd) " " +++ nl.

End Notions.

(** A runtime to evaluate the code on: the world is the list of the
    commands run so far, a command fails when [fails] says so, every call
    to the file system succeeds, and paths are joined with a slash. *)
Definition scripted (fails : Cmd -> bool) : Runtime :=
  {| World := list Cmd;
     unicode_ToUpper := fun s => s;
     filepath_Join := fun elems => Join elems "/";
     now_RFC3339 := fun _ => "2024-05-06T07:08:09Z";
     os_MkdirAll := fun _ _ w => (w, None);
     ioutil_WriteFile := fun _ _ _ w => (w, None);
     user_Current := fun w => (w, inr "/home/build");
     cmd_Run := fun cmd w =>
       (w ++ [cmd],
        if fails cmd then Some (LibError "exit status 125") else None) |}.

(** The runtime in which no command fails. *)
Definition quiet : Runtime := scripted (fun _ => false).

(** A starting state of a scripted run: the environment [env], no command
    run yet, nothing written. *)
Definition start (fails : Cmd -> bool) (env : Env) : @State (scripted fails) :=
  @Build_State (scripted fails) env (@nil Cmd) [].

(** The environment in which only the variables of [vars] are set. *)
Fixpoint envOf (vars : list (string * string)) : Env :=
  match vars with
  | [] => fun _ => EmptyString
  | (k, v) :: r => Setenv k v (envOf r)
  end.

(** A [Build] with every field empty or false. *)
Definition emptyBuild : Build :=
  {| Remote := EmptyString; Name := EmptyString; Dockerfile := EmptyString;
     Context := EmptyString; Tags := []; Args := []; ArgsEnv := [];
     Target := EmptyString; Squash := false; Pull := false; CacheFrom := [];
     Compress := false; Repo := EmptyString; LabelSchema := [];
     AutoLabel := false; Labels := []; Link := EmptyString; NoCache := false;
     AddHost := []; Quiet := false; S3CacheDir := EmptyString;
     S3Bucket := EmptyString; S3Endpoint := EmptyString;
     S3Region := EmptyString; S3Key := EmptyString; S3Secret := EmptyString;
     S3UseSSL := false; Layers := false |}.

Definition emptyLogin : Login :=
  {| Registry := EmptyString; Username := EmptyString;
     Password := EmptyString; Email := EmptyString; Config := EmptyString |}.

(** A build with two cache images and two tags, and the plugin of
    docker.go around it that pushes and cleans up. *)
Definition sampleBuild : Build :=
  {| Remote := EmptyString; Name := "img"; Dockerfile := "Dockerfile";
     Context := "."; Tags := ["v1"; "v2"]; Args := []; ArgsEnv := [];
     Target := EmptyString; Squash := false; Pull := false;
     CacheFrom := ["a"; "b"]; Compress := false; Repo := "r/app";
     LabelSchema := []; AutoLabel := false; Labels := [];
     Link := EmptyString; NoCache := false; AddHost := []; Quiet := false;
     S3CacheDir := EmptyString; S3Bucket := EmptyString;
     S3Endpoint := EmptyString; S3Region := EmptyString;
     S3Key := EmptyString; S3Secret := EmptyString; S3UseSSL := false;
     Layers := false |}.

Definition samplePlugin : DockerGo.Plugin :=
  {| DockerGo.pLogin := emptyLogin; DockerGo.pBuild := sampleBuild;
     DockerGo.Dryrun := false; DockerGo.Cleanup := true |}.

(** The flag [hasLower] of [strings.ToUpper]: some byte is in ['a'..'z']. *)
Definition hasLower (s : string) : bool :=
  existsb (fun c => let n := nat_of_ascii c in ((97 <=? n) && (n <=? 122))%nat)
          (list_ascii_of_string s).

(** The three keys of [addProxyBuildArgs], in its order. *)
Definition proxyKeys : list string := ["http_proxy"; "https_proxy"; "no_proxy"].

Section Judgements.

Context {R : Runtime}.

(** [m] writes no variable of the environment outside [K]. *)
Definition touches (K : list string) {A : Type} (m : M A) : Prop :=
  forall s k, ~ In k K -> st_env (fst (m s)) k = st_env s k.

(** Every error that [m] makes the function return satisfies [P]. *)
Definition raises {A : Type} (P : error -> Prop) (m : M A) : Prop :=
  forall s e, snd (m s) = Return e -> P e.

(** Every value that [m] goes on with satisfies [Q]. *)
Definition yields {A : Type} (Q : A -> Prop) (m : M A) : Prop :=
  forall s a, snd (m s) = Go a -> Q a.

(** The three tests of the loop of the variant, taken together. *)
Definition tolerated (args : list string) : bool :=
  Variant.isCommandPull args || Variant.isCommandPrune args
  || Variant.isCommandRmi args.

(** The texts that docker.go puts in front of an error it returns. *)
Definition contexts : list string :=
  [ "error creating temporary directory: "; "error writing storage.conf: ";
    "error creating auth directory: "; "error writing auth.json: ";
    "error authenticating: "; "command failed: " ].

End Judgements.

(** The texts that the variant puts in front of an error of its setup and
    of its login. *)
Definition variantContexts : list string :=
  [ "error getting current user: ";
    "error creating storage config directory: ";
    "error writing storage.conf: "; "error writing auth.json: ";
    "error authenticating: " ].

(** The subcommand of a command of the variant: the token after
    [buildah]. *)
Definition variantSubcommand (cmd : Cmd) : string :=
  Variant.index (cmdArgs cmd) 1.

(** The sample plugin as a dry run, and the plugin of the variant around
    the sample build. *)
Definition dryPlugin : DockerGo.Plugin :=
  {| DockerGo.pLogin := emptyLogin; DockerGo.pBuild := sampleBuild;
     DockerGo.Dryrun := true; DockerGo.Cleanup := true |}.

Definition variantPlugin (skip : bool) : Variant.Plugin :=
  {| Variant.pLogin := emptyLogin; Variant.pBuild := sampleBuild;
     Variant.SkipPush := skip; Variant.Cleanup := true |}.

(** Scripts of failures: the pulls of docker.go, the pulls of the variant,
    the build of the variant. *)
Definition pullFails : Cmd -> bool :=
  fun cmd => String.eqb (subcommand cmd) "pull".

Definition variantPullFails : Cmd -> bool :=
  fun cmd => Variant.isCommandPull (cmdArgs cmd).

Definition variantBuildFails : Cmd -> bool :=
  fun cmd => String.eqb (variantSubcommand cmd) "bud".

(** * Properties *)

(** ** Strings and folds *)

Lemma prefix_append (k x : string) : String.prefix k (k +++ x) = true.
Proof.
  induction k as [|c k IH]; simpl.
  - destruct x; reflexivity.
  - destruct (ascii_dec c c) as [_|n]; [exact IH | now elim n].
Qed.

Lemma HasPrefix_own (k x : string) : HasPrefix (k +++ x) k = true.
Proof. apply prefix_append. Qed.

Lemma fold_left_flags (flag : string) (l args : list string) :
  fold_left (fun args x => args ++ [flag; x]) l args = args ++ flags flag l.
Proof.
  revert args; induction l as [|x l IH]; intro args; simpl.
  - now rewrite app_nil_r.
  - rewrite IH, <- app_assoc. reflexivity.
Qed.

Lemma if_append (c : bool) (args extra : list string) :
  (if c then args ++ extra else args) = args ++ when c extra.
Proof. destruct c; simpl; [reflexivity | now rewrite app_nil_r]. Qed.

Lemma flags_app (flag : string) (l1 l2 : list string) :
  flags flag (l1 ++ l2) = flags flag l1 ++ flags flag l2.
Proof. unfold flags. apply flat_map_app. Qed.

(** ** Proxy build args *)

Section ProxyFacts.

Context {R : Runtime}.

Lemma sameButArgs_refl (build : Build) : sameButArgs build build.
Proof. repeat split. Qed.

Lemma sameButArgs_trans (b1 b2 b3 : Build) :
  sameButArgs b1 b2 -> sameButArgs b2 b3 -> sameButArgs b1 b3.
Proof.
  unfold sameButArgs; intros H12 H23.
  repeat match goal with H : _ /\ _ |- _ => destruct H end.
  repeat split; congruence.
Qed.

(** The one step of the injection, on the list of build args. *)
Lemma addProxyValue_Args (env : Env) (build : Build) (key : string) :
  Args (addProxyValue env build key)
  = Args build ++ proxyPair env (Args build) key.
Proof.
  unfold addProxyValue, proxyPair, hasProxyBuildArg.
  destruct (nonempty (getProxyValue env key)
            && negb (existsb _ (Args build))); simpl.
  - rewrite <- app_assoc. reflexivity.
  - now rewrite app_nil_r.
Qed.

Lemma addProxyValue_frame (env : Env) (build : Build) (key : string) :
  sameButArgs build (addProxyValue env build key).
Proof.
  unfold addProxyValue.
  destruct (nonempty (getProxyValue env key)
            && negb (hasProxyBuildArg build key)).
  - repeat split.
  - apply sameButArgs_refl.
Qed.

Lemma addProxyValue_keys_frame (env : Env) (keys : list string) :
  forall build,
    sameButArgs build
      (fold_left (fun build arg => addProxyValue env build arg) keys build).
Proof.
  induction keys as [|k keys IH]; intro build; simpl.
  - apply sameButArgs_refl.
  - eapply sameButArgs_trans; [apply addProxyValue_frame | apply IH].
Qed.

Lemma addProxyBuildArgs_frame (env : Env) (build : Build) :
  sameButArgs build (addProxyBuildArgs env build).
Proof.
  unfold addProxyBuildArgs.
  eapply sameButArgs_trans; [apply addProxyValue_frame |].
  eapply sameButArgs_trans; apply addProxyValue_frame.
Qed.

Lemma addProxyValue_keys_Args (env : Env) (keys : list string) :
  forall build,
    Args (fold_left (fun build arg => addProxyValue env build arg) keys build)
    = Args build ++ envDerived env (Args build) keys.
Proof.
  induction keys as [|k keys IH]; intro build; simpl.
  - now rewrite app_nil_r.
  - rewrite IH, addProxyValue_Args, <- app_assoc. reflexivity.
Qed.

Lemma settled_fixed (env : Env) (build : Build) (key : string) :
  settled env build key -> addProxyValue env build key = build.
Proof.
  unfold settled, addProxyValue; intros [H | H]; rewrite H; simpl.
  - reflexivity.
  - now rewrite andb_false_r.
Qed.

Lemma hasProxyBuildArg_grows (env : Env) (build : Build) (key key' : string) :
  hasProxyBuildArg build key = true ->
  hasProxyBuildArg (addProxyValue env build key') key = true.
Proof.
  unfold hasProxyBuildArg; intro H.
  rewrite addProxyValue_Args, existsb_app, H. reflexivity.
Qed.

Lemma settled_kept (env : Env) (build : Build) (key key' : string) :
  settled env build key -> settled env (addProxyValue env build key') key.
Proof.
  intros [H | H]; [now left | right].
  now apply hasProxyBuildArg_grows.
Qed.

Lemma settled_made (env : Env) (build : Build) (key : string) :
  settled env (addProxyValue env build key) key.
Proof.
  unfold settled.
  destruct (nonempty (getProxyValue env key)) eqn:Hv; [right | now left].
  destruct (hasProxyBuildArg build key) eqn:Hh.
  - now apply hasProxyBuildArg_grows.
  - unfold hasProxyBuildArg. rewrite addProxyValue_Args.
    unfold proxyPair. unfold hasProxyBuildArg in Hh. rewrite Hv, Hh. simpl.
    rewrite existsb_app. simpl. rewrite HasPrefix_own. simpl.
    now rewrite orb_true_r.
Qed.

End ProxyFacts.

(** C4.  Running [addProxyBuildArgs] on its own result changes nothing:
    in every environment, the second run leaves the record, and so its
    list of build args, as the first run made it. *)
Theorem addProxyBuildArgs_idempotent {R : Runtime} (env : Env) (build : Build) :
  addProxyBuildArgs env (addProxyBuildArgs env build)
  = addProxyBuildArgs env build
  /\ Args (addProxyBuildArgs env (addProxyBuildArgs env build))
     = Args (addProxyBuildArgs env build).
Proof.
  assert (E : addProxyBuildArgs env (addProxyBuildArgs env build)
              = addProxyBuildArgs env build).
  { unfold addProxyBuildArgs at 1.
    assert (H1 : settled env (addProxyBuildArgs env build) "http_proxy").
    { unfold addProxyBuildArgs.
      do 2 apply settled_kept. apply settled_made. }
    assert (H2 : settled env (addProxyBuildArgs env build) "https_proxy").
    { unfold addProxyBuildArgs. apply settled_kept. apply settled_made. }
    assert (H3 : settled env (addProxyBuildArgs env build) "no_proxy").
    { unfold addProxyBuildArgs. apply settled_made. }
    rewrite (settled_fixed H1), (settled_fixed H2), (settled_fixed H3).
    reflexivity. }
  split; [exact E | now rewrite E].
Qed.

(** C7, as the claim has it, fails: the arg [Http_Proxy=a] begins with
    the key [http_proxy] in another casing of its letters, yet
    [hasProxyBuildArg] reports no arg for the key and [addProxyValue]
    inserts the pair. *)
Lemma hasProxyBuildArg_misses_mixed_case :
  In "Http_Proxy=a" (Args (set_Args emptyBuild ["Http_Proxy=a"]))
  /\ sameLetters (leading (String.length "http_proxy") "Http_Proxy=a")
                 "http_proxy" = true
  /\ @hasProxyBuildArg quiet (set_Args emptyBuild ["Http_Proxy=a"])
                       "http_proxy" = false
  /\ Args (@addProxyValue quiet (envOf [("http_proxy", "p")])
                          (set_Args emptyBuild ["Http_Proxy=a"]) "http_proxy")
     = ["Http_Proxy=a"; "http_proxy=p"; "HTTP_PROXY=p"].
Proof. repeat split; [now left]. Qed.

(** C7, amended.  The presence check knows two spellings of the key: as
    it is written and as [strings.ToUpper] makes it.  For every build with
    an arg that begins with one of the two, [hasProxyBuildArg] reports the
    arg as present and [addProxyValue] leaves the build as it is; and the
    check reports an arg as present for no other reason. *)
Theorem hasProxyBuildArg_two_spellings {R : Runtime}
    (build : Build) (key s : string) :
  In s (Args build) ->
  HasPrefix s key = true \/ HasPrefix s (ToUpper key) = true ->
  hasProxyBuildArg build key = true
  /\ (forall env, addProxyValue env build key = build)
  /\ (forall build',
        hasProxyBuildArg build' key = true ->
        exists s',
          In s' (Args build')
          /\ (HasPrefix s' key = true \/ HasPrefix s' (ToUpper key) = true)).
Proof.
  intros Hin Hpre.
  assert (H : hasProxyBuildArg build key = true).
  { unfold hasProxyBuildArg. apply existsb_exists. exists s.
    split; [exact Hin |].
    destruct Hpre as [-> | ->]; [reflexivity | apply orb_true_r]. }
  split; [exact H |]. split.
  - intro env. apply settled_fixed. now right.
  - intros build' H'. unfold hasProxyBuildArg in H'.
    apply existsb_exists in H'. destruct H' as (s' & Hin' & Hs').
    exists s'. split; [exact Hin' |]. now apply orb_true_iff.
Qed.

Lemma hasProxyBuildArg_two_spellings_witness :
  @hasProxyBuildArg quiet (set_Args emptyBuild ["HTTP_PROXY=a"]) "http_proxy"
  = true
  /\ forall env,
       @addProxyValue quiet env (set_Args emptyBuild ["HTTP_PROXY=a"])
                      "http_proxy"
       = set_Args emptyBuild ["HTTP_PROXY=a"].
Proof.
  destruct (@hasProxyBuildArg_two_spellings quiet
              (set_Args emptyBuild ["HTTP_PROXY=a"]) "http_proxy"
              "HTTP_PROXY=a" (or_introl eq_refl) (or_intror eq_refl))
    as (Hhas & Hadd & _).
  exact (conj Hhas Hadd).
Defined.

Lemma nonempty_iff (s : string) : nonempty s = true <-> s <> EmptyString.
Proof.
  destruct s as [|c s]; split; intro H; try discriminate.
  - now elim H.
  - reflexivity.
Qed.

(** C8.  For every key, [getProxyValue] gives the variable named as the
    key is written when that is not empty, and the variable of the
    upper-cased name otherwise.  When the value it gives is not empty and
    no build arg has the key, [addProxyValue] appends two entries and no
    more: [key=value], then [KEY=value] with the same value.  The three
    proxy keys are in lower case, and their upper-cased names are the
    usual ones. *)
Theorem addProxyValue_appends_pair {R : Runtime}
    (env : Env) (build : Build) (key : string) :
  (Getenv env key <> EmptyString -> getProxyValue env key = Getenv env key)
  /\ (Getenv env key = EmptyString ->
      getProxyValue env key = Getenv env (ToUpper key))
  /\ (getProxyValue env key <> EmptyString ->
      hasProxyBuildArg build key = false ->
      Args (addProxyValue env build key)
      = Args build ++ [ key +++ "=" +++ getProxyValue env key;
                        ToUpper key +++ "=" +++ getProxyValue env key ])
  /\ ToUpper "http_proxy" = "HTTP_PROXY"
  /\ ToUpper "https_proxy" = "HTTPS_PROXY"
  /\ ToUpper "no_proxy" = "NO_PROXY".
Proof.
  split; [| split; [| split; [| repeat split]]].
  - intro H. apply nonempty_iff in H. unfold getProxyValue. now rewrite H.
  - intro H. unfold getProxyValue. now rewrite H.
  - intros Hv Hh. apply nonempty_iff in Hv.
    rewrite addProxyValue_Args. unfold proxyPair.
    unfold hasProxyBuildArg in Hh. rewrite Hv, Hh. reflexivity.
Qed.

Lemma addProxyValue_appends_pair_witness :
  @getProxyValue quiet (envOf [("HTTPS_PROXY", "http://p:3128")]) "https_proxy"
  = "http://p:3128"
  /\ Args (@addProxyValue quiet (envOf [("HTTPS_PROXY", "http://p:3128")])
             (set_Args emptyBuild ["A=1"]) "https_proxy")
     = ["A=1"; "https_proxy=http://p:3128"; "HTTPS_PROXY=http://p:3128"].
Proof.
  destruct (@addProxyValue_appends_pair quiet
              (envOf [("HTTPS_PROXY", "http://p:3128")])
              (set_Args emptyBuild ["A=1"]) "https_proxy")
    as (_ & Hfall & Hpair & _).
  split.
  - exact (Hfall eq_refl).
  - refine (Hpair _ eq_refl). simpl. discriminate.
Defined.

(** C9.  The injection of proxy build args writes the field [Args] and no
    other: after [addProxyBuildArgs], and after the injection of any keys
    that follows it in [commandBuild], every other field of the [Build] is
    as before, and so are the login and the flags of the plugin that holds
    it, in docker.go and in the variant. *)
Theorem proxy_injection_frame {R : Runtime} (env : Env) :
  (forall build keys,
     sameButArgs build (addProxyBuildArgs env build)
     /\ sameButArgs build
          (fold_left (fun build arg => addProxyValue env build arg) keys
                     (addProxyBuildArgs env build))
     /\ sameButArgs build (injected env (addProxyBuildArgs env build)))
  /\ (forall p : DockerGo.Plugin,
        let p' := DockerGo.set_Build p
                    (addProxyBuildArgs env (DockerGo.pBuild p)) in
        DockerGo.pLogin p' = DockerGo.pLogin p
        /\ DockerGo.Dryrun p' = DockerGo.Dryrun p
        /\ DockerGo.Cleanup p' = DockerGo.Cleanup p
        /\ sameButArgs (DockerGo.pBuild p) (DockerGo.pBuild p'))
  /\ (forall p : Variant.Plugin,
        let p' := Variant.set_Build p
                    (addProxyBuildArgs env (Variant.pBuild p)) in
        Variant.pLogin p' = Variant.pLogin p
        /\ Variant.SkipPush p' = Variant.SkipPush p
        /\ Variant.Cleanup p' = Variant.Cleanup p
        /\ sameButArgs (Variant.pBuild p) (Variant.pBuild p')).
Proof.
  split; [| split].
  - intros build keys. split; [apply addProxyBuildArgs_frame |].
    split.
    + eapply sameButArgs_trans;
        [apply addProxyBuildArgs_frame | apply addProxyValue_keys_frame].
    + eapply sameButArgs_trans;
        [apply addProxyBuildArgs_frame | apply addProxyValue_keys_frame].
  - intro p; simpl. repeat split; apply addProxyBuildArgs_frame.
  - intro p; simpl. repeat split; apply addProxyBuildArgs_frame.
Qed.

(** ** The argument builder *)

(** One [let] of a chain of statements: name the bound value, rewrite it
    with [tac], and put the result in its place. *)
Ltac step tac :=
  lazymatch goal with
  | |- (let x := ?v in @?b x) = ?r =>
      let a := fresh "a" in
      let E := fresh "E" in
      pose (a := v); change (b a = r); cbv beta;
      pose proof (eq_refl : a = v) as E; clearbody a;
      tac E; rewrite E; clear E a
  end.

Lemma fold_left_labels (l args : list string) :
  fold_left (fun args label =>
               args ++ ["--label"; "org.opencontainers.image" +++ "." +++ label])
            l args
  = args ++ flags "--label" (map namespaced l).
Proof.
  revert args; induction l as [|x l IH]; intro args; simpl.
  - now rewrite app_nil_r.
  - rewrite IH, <- app_assoc. reflexivity.
Qed.

Lemma if_nonempty_flags (flag : string) (l args : list string) :
  (if (0 <? List.length l)%nat
   then fold_left (fun args x => args ++ [flag; x]) l args else args)
  = args ++ flags flag l.
Proof.
  destruct l as [|x l]; [simpl; now rewrite app_nil_r |].
  change (0 <? List.length (x :: l))%nat with true. cbv iota.
  apply fold_left_flags.
Qed.

Lemma if_nonempty_append (l base : list string) :
  (if (0 <? List.length l)%nat then base ++ l else base) = base ++ l.
Proof. destruct l; simpl; [now rewrite app_nil_r | reflexivity]. Qed.

(** docker.go 231-254 *)
Lemma layers_block (build : Build) (args : list string) :
  (if Layers build then
      let args := args ++ ["--layers=true"] in
      if isSet (S3CacheDir build) then
        let args := args ++ ["--s3-local-cache-dir"; S3CacheDir build] in
        let args :=
          if isSet (S3Bucket build)
          then args ++ ["--s3-bucket"; S3Bucket build] else args in
        let args :=
          if isSet (S3Endpoint build)
          then args ++ ["--s3-endpoint"; S3Endpoint build] else args in
        let args :=
          if isSet (S3Region build)
          then args ++ ["--s3-region"; S3Region build] else args in
        let args :=
          if isSet (S3Key build)
          then args ++ ["--s3-key"; S3Key build] else args in
        let args :=
          if isSet (S3Secret build)
          then args ++ ["--s3-secret"; S3Secret build] else args in
        let args :=
          if S3UseSSL build then args ++ ["--s3-use-ssl=true"] else args in
        args
      else args
    else args)
  = args ++ when (Layers build)
       ("--layers=true" ::
        when (isSet (S3CacheDir build))
          (["--s3-local-cache-dir"; S3CacheDir build]
           ++ when (isSet (S3Bucket build)) ["--s3-bucket"; S3Bucket build]
           ++ when (isSet (S3Endpoint build))
                ["--s3-endpoint"; S3Endpoint build]
           ++ when (isSet (S3Region build)) ["--s3-region"; S3Region build]
           ++ when (isSet (S3Key build)) ["--s3-key"; S3Key build]
           ++ when (isSet (S3Secret build)) ["--s3-secret"; S3Secret build]
           ++ when (S3UseSSL build) ["--s3-use-ssl=true"])).
Proof.
  destruct (Layers build); [| simpl; now rewrite app_nil_r].
  step ltac:(fun E => idtac).
  destruct (isSet (S3CacheDir build)); [| reflexivity].
  step ltac:(fun E => idtac).
  do 6 step ltac:(fun E => rewrite if_append in E).
  simpl. rewrite <- !app_assoc. reflexivity.
Qed.

(** The whole list that the shared body of [commandBuild] makes from the
    slice [args] of its first statement. *)
Lemma buildArgs_layout {R : Runtime}
    (args : list string) (now : string) (env : Env) (build : Build) :
  buildArgs args now env build
  = args ++ switches build
    ++ flags "--cache-from" (CacheFrom build)
    ++ flags "--build-arg" (Args (injected env build))
    ++ flags "--add-host" (AddHost build)
    ++ targetQuietLayers build
    ++ when (AutoLabel build)
         (flags "--label"
            (map namespaced (baseLabels now build ++ LabelSchema build)))
    ++ flags "--label" (Labels build)
    ++ ["-t"; Name build; Context build].
Proof.
  cbv beta delta [buildArgs].
  do 4 step ltac:(fun E => rewrite if_append in E).
  step ltac:(fun E => rewrite fold_left_flags in E).
  step ltac:(fun E => fold (injected env build) in E).
  do 2 step ltac:(fun E => rewrite fold_left_flags in E).
  do 2 step ltac:(fun E => rewrite if_append in E).
  step ltac:(fun E => rewrite layers_block in E).
  step ltac:(fun E =>
    cbv zeta in E;
    rewrite if_nonempty_append, fold_left_labels, if_append in E).
  step ltac:(fun E => rewrite if_nonempty_flags in E).
  do 2 step ltac:(fun E => idtac).
  pose proof (addProxyValue_keys_frame env (ArgsEnv build) build) as F.
  fold (injected env build) in F.
  unfold sameButArgs in F.
  repeat match goal with H : _ /\ _ |- _ => destruct H as [?E H] end.
  repeat match goal with
         | H : _ (injected env build) = _ |- _ => rewrite H; clear H
         end.
  unfold switches, targetQuietLayers, baseLabels.
  rewrite <- !app_assoc. reflexivity.
Qed.

Lemma injected_Args {R : Runtime} (env : Env) (build : Build) :
  Args (injected env build)
  = Args build ++ envDerived env (Args build) (ArgsEnv build).
Proof. apply addProxyValue_keys_Args. Qed.

(** C2, as the claim has it, fails on the variant: there the token after
    [bud] is [--format], and [-f] comes two places later. *)
Lemma commandBuild_variant_format_first :
  cmdArgs (@Variant.commandBuild quiet "2024-05-06T07:08:09Z" (envOf [])
             {| Remote := EmptyString; Name := "img";
                Dockerfile := "Dockerfile"; Context := "."; Tags := [];
                Args := []; ArgsEnv := []; Target := EmptyString;
                Squash := false; Pull := false; CacheFrom := [];
                Compress := false; Repo := EmptyString; LabelSchema := [];
                AutoLabel := false; Labels := []; Link := EmptyString;
                NoCache := false; AddHost := []; Quiet := false;
                S3CacheDir := EmptyString; S3Bucket := EmptyString;
                S3Endpoint := EmptyString; S3Region := EmptyString;
                S3Key := EmptyString; S3Secret := EmptyString;
                S3UseSSL := false; Layers := false |})
  = ["buildah"; "bud"; "--format"; "docker"; "-f"; "Dockerfile";
     "-t"; "img"; "."].
Proof. reflexivity. Qed.

(** C2, amended.  For every build, the list of [commandBuild] ends with
    the context path.  In docker.go the flag [-f] and the Dockerfile come
    right after the token [bud]; in the variant the tokens [--format] and
    [docker] stand between [bud] and [-f]. *)
Theorem commandBuild_dockerfile_and_context {R : Runtime}
    (now : string) (env : Env) (build : Build) :
  (exists mid,
     cmdArgs (DockerGo.commandBuild now env build)
     = ["buildah"; "--storage-driver"; "vfs"; "bud"; "-f"; Dockerfile build]
       ++ mid ++ [Context build])
  /\ (exists mid,
        cmdArgs (Variant.commandBuild now env build)
        = ["buildah"; "bud"; "--format"; "docker"; "-f"; Dockerfile build]
          ++ mid ++ [Context build]).
Proof.
  split;
    [unfold DockerGo.commandBuild | unfold Variant.commandBuild];
    unfold exec_Command; cbv zeta; cbn [cmdArgs]; rewrite buildArgs_layout;
    eexists; cbn [app buildahExe]; do 6 f_equal;
    change ["-t"; Name build; Context build]
      with (["-t"; Name build] ++ [Context build]);
    rewrite !app_assoc; reflexivity.
Qed.

Lemma namespaced_prefix (label : string) :
  HasPrefix (namespaced label) "org.opencontainers.image" = true.
Proof. apply HasPrefix_own. Qed.

(** C5.  With [AutoLabel] set, the list of [commandBuild] is the flags
    that come before the labels, then one [--label] for each of the four
    labels the function makes itself (created, revision = the build name,
    source = the remote, url = the link) and for each entry of
    [LabelSchema], every one of these values behind the namespace
    [org.opencontainers.image], then one [--label] for each entry of
    [Labels] with the entry as it was given, then [-t], the name and the
    context.  The same holds for the variant with its own first tokens. *)
Theorem commandBuild_labels {R : Runtime}
    (now : string) (env : Env) (build : Build) :
  AutoLabel build = true ->
  let front :=
    switches build ++ flags "--cache-from" (CacheFrom build)
    ++ flags "--build-arg" (Args (injected env build))
    ++ flags "--add-host" (AddHost build) ++ targetQuietLayers build in
  let auto :=
    [ "created=" +++ now; "revision=" +++ Name build;
      "source=" +++ Remote build; "url=" +++ Link build ]
    ++ LabelSchema build in
  let labels :=
    flags "--label" (map (fun l => "org.opencontainers.image." +++ l) auto)
    ++ flags "--label" (Labels build) in
  cmdArgs (DockerGo.commandBuild now env build)
  = ["buildah"; "--storage-driver"; "vfs"; "bud"; "-f"; Dockerfile build]
    ++ front ++ labels ++ ["-t"; Name build; Context build]
  /\ cmdArgs (Variant.commandBuild now env build)
     = ["buildah"; "bud"; "--format"; "docker"; "-f"; Dockerfile build]
       ++ front ++ labels ++ ["-t"; Name build; Context build]
  /\ List.length auto = 4 + List.length (LabelSchema build)
  /\ (forall l, HasPrefix ("org.opencontainers.image." +++ l)
                          "org.opencontainers.image" = true).
Proof.
  intros Hauto front auto labels.
  assert (L : forall args,
             buildArgs args now env build
             = args ++ front ++ labels ++ ["-t"; Name build; Context build]).
  { intro args. rewrite buildArgs_layout, Hauto.
    unfold front, labels, auto, when, baseLabels.
    rewrite <- !app_assoc. reflexivity. }
  split; [| split; [| split]].
  - unfold DockerGo.commandBuild, exec_Command; cbv zeta; cbn [cmdArgs].
    rewrite L. reflexivity.
  - unfold Variant.commandBuild, exec_Command; cbv zeta; cbn [cmdArgs].
    rewrite L. reflexivity.
  - reflexivity.
  - intro l. apply (namespaced_prefix l).
Qed.

Lemma commandBuild_labels_witness :
  cmdArgs (@DockerGo.commandBuild quiet "2024-05-06T07:08:09Z" (envOf [])
             {| Remote := "https://git.example/r.git"; Name := "abc123";
                Dockerfile := "Dockerfile"; Context := "."; Tags := [];
                Args := []; ArgsEnv := []; Target := EmptyString;
                Squash := false; Pull := false; CacheFrom := [];
                Compress := false; Repo := EmptyString;
                LabelSchema := ["version=1"]; AutoLabel := true;
                Labels := ["team=ops"]; Link := "https://git.example/r";
                NoCache := false; AddHost := []; Quiet := false;
                S3CacheDir := EmptyString; S3Bucket := EmptyString;
                S3Endpoint := EmptyString; S3Region := EmptyString;
                S3Key := EmptyString; S3Secret := EmptyString;
                S3UseSSL := false; Layers := false |})
  = ["buildah"; "--storage-driver"; "vfs"; "bud"; "-f"; "Dockerfile";
     "--label"; "org.opencontainers.image.created=2024-05-06T07:08:09Z";
     "--label"; "org.opencontainers.image.revision=abc123";
     "--label"; "org.opencontainers.image.source=https://git.example/r.git";
     "--label"; "org.opencontainers.image.url=https://git.example/r";
     "--label"; "org.opencontainers.image.version=1";
     "--label"; "team=ops";
     "-t"; "abc123"; "."].
Proof.
  exact (proj1 (@commandBuild_labels quiet "2024-05-06T07:08:09Z" (envOf [])
    {| Remote := "https://git.example/r.git"; Name := "abc123";
       Dockerfile := "Dockerfile"; Context := "."; Tags := [];
       Args := []; ArgsEnv := []; Target := EmptyString;
       Squash := false; Pull := false; CacheFrom := [];
       Compress := false; Repo := EmptyString;
       LabelSchema := ["version=1"]; AutoLabel := true;
       Labels := ["team=ops"]; Link := "https://git.example/r";
       NoCache := false; AddHost := []; Quiet := false;
       S3CacheDir := EmptyString; S3Bucket := EmptyString;
       S3Endpoint := EmptyString; S3Region := EmptyString;
       S3Key := EmptyString; S3Secret := EmptyString;
       S3UseSSL := false; Layers := false |} eq_refl)).
Defined.

(** C6, as the claim has it, fails: with the explicit arg [A=1] and the
    name [foo] in [ArgsEnv], the explicit arg comes first and the two
    entries made from the environment come after it. *)
Lemma commandBuild_explicit_args_first :
  cmdArgs (@DockerGo.commandBuild quiet "2024-05-06T07:08:09Z"
             (envOf [("foo", "x")])
             {| Remote := EmptyString; Name := "img";
                Dockerfile := "Dockerfile"; Context := "."; Tags := [];
                Args := ["A=1"]; ArgsEnv := ["foo"]; Target := EmptyString;
                Squash := false; Pull := false; CacheFrom := [];
                Compress := false; Repo := EmptyString; LabelSchema := [];
                AutoLabel := false; Labels := []; Link := EmptyString;
                NoCache := false; AddHost := []; Quiet := false;
                S3CacheDir := EmptyString; S3Bucket := EmptyString;
                S3Endpoint := EmptyString; S3Region := EmptyString;
                S3Key := EmptyString; S3Secret := EmptyString;
                S3UseSSL := false; Layers := false |})
  = ["buildah"; "--storage-driver"; "vfs"; "bud"; "-f"; "Dockerfile";
     "--build-arg"; "A=1"; "--build-arg"; "foo=x"; "--build-arg"; "FOO=x";
     "-t"; "img"; "."].
Proof. reflexivity. Qed.

(** C6, amended.  In the list of [commandBuild] the single flags are
    followed by one [--cache-from] per entry of [CacheFrom], then one
    [--build-arg] per build arg, the explicit [Args] first and in their
    order, the entries made for the names of [ArgsEnv] after them in the
    order of [ArgsEnv], then one [--add-host] per entry of [AddHost]; each
    group in the order of its list.  A name of [ArgsEnv] adds its two
    entries, [name=value] and [NAME=value], when its value is not empty
    and none of the args before it, explicit or added for an earlier
    name, begins with the name as written or with the upper-cased name;
    otherwise it adds nothing.  The same holds for the variant with its
    own first tokens. *)
Theorem commandBuild_repeated_flags {R : Runtime}
    (now : string) (env : Env) (build : Build) :
  let groups :=
    flags "--cache-from" (CacheFrom build)
    ++ flags "--build-arg" (Args build)
    ++ flags "--build-arg" (envDerived env (Args build) (ArgsEnv build))
    ++ flags "--add-host" (AddHost build) in
  (exists rest,
     cmdArgs (DockerGo.commandBuild now env build)
     = ["buildah"; "--storage-driver"; "vfs"; "bud"; "-f"; Dockerfile build]
       ++ switches build ++ groups ++ rest
     /\ cmdArgs (Variant.commandBuild now env build)
        = ["buildah"; "bud"; "--format"; "docker"; "-f"; Dockerfile build]
          ++ switches build ++ groups ++ rest)
  /\ (forall before, envDerived env before [] = [])
  /\ (forall before name names,
        let value := getProxyValue env name in
        let new :=
          if nonempty value
             && negb (existsb (fun s => HasPrefix s name
                                        || HasPrefix s (ToUpper name))
                              before)
          then [name +++ "=" +++ value; ToUpper name +++ "=" +++ value]
          else [] in
        envDerived env before (name :: names)
        = new ++ envDerived env (before ++ new) names).
Proof.
  intro groups.
  assert (L : forall args,
             buildArgs args now env build
             = args ++ switches build ++ groups
               ++ (targetQuietLayers build
                   ++ when (AutoLabel build)
                        (flags "--label"
                           (map namespaced
                                (baseLabels now build ++ LabelSchema build)))
                   ++ flags "--label" (Labels build)
                   ++ ["-t"; Name build; Context build])).
  { intro args. rewrite buildArgs_layout, injected_Args, flags_app.
    unfold groups. rewrite <- !app_assoc. reflexivity. }
  split; [| split].
  - eexists. split.
    + unfold DockerGo.commandBuild, exec_Command; cbv zeta; cbn [cmdArgs].
      rewrite L. reflexivity.
    + unfold Variant.commandBuild, exec_Command; cbv zeta; cbn [cmdArgs].
      rewrite L. reflexivity.
  - reflexivity.
  - intros before name names. reflexivity.
Qed.

(** ** The command sequencer *)

Lemma fold_left_singletons (A B : Type) (f : A -> B) (l : list A)
    (acc : list B) :
  fold_left (fun acc x => acc ++ [f x]) l acc = acc ++ map f l.
Proof.
  revert acc; induction l as [|x l IH]; intro acc; simpl.
  - now rewrite app_nil_r.
  - rewrite IH, <- app_assoc. reflexivity.
Qed.

(** The loop over the tags: a tag command for each tag and, unless
    [skip] holds, a push command right after it. *)
Lemma fold_left_tag_push (tagc pushc : string -> Cmd) (skip : bool)
    (tags : list string) (cmds : list Cmd) :
  fold_left
    (fun cmds tag =>
       let cmds := cmds ++ [tagc tag] in
       if negb skip then cmds ++ [pushc tag] else cmds)
    tags cmds
  = cmds ++ flat_map (fun tag => tagc tag :: (if skip then [] else [pushc tag]))
                     tags.
Proof.
  revert cmds; induction tags as [|t tags IH]; intro cmds; simpl.
  - now rewrite app_nil_r.
  - rewrite IH. destruct skip; simpl; rewrite <- !app_assoc; reflexivity.
Qed.

Lemma DockerGo_cmds_closed {R : Runtime} (now : string) (env : Env)
    (p : DockerGo.Plugin) :
  DockerGo.Exec_cmds now env p
  = [DockerGo.commandVersion; DockerGo.commandInfo]
    ++ map DockerGo.commandPull (CacheFrom (DockerGo.pBuild p))
    ++ [DockerGo.commandBuild now env (DockerGo.pBuild p)]
    ++ flat_map
         (fun tag =>
            DockerGo.commandTag (DockerGo.pBuild p) tag
            :: (if DockerGo.Dryrun p then []
                else [DockerGo.commandPush (DockerGo.pBuild p) tag]))
         (Tags (DockerGo.pBuild p))
    ++ (if DockerGo.Cleanup p
        then [DockerGo.commandRmi (Name (DockerGo.pBuild p))] else []).
Proof.
  unfold DockerGo.Exec_cmds.
  rewrite fold_left_singletons, fold_left_tag_push.
  destruct (DockerGo.Cleanup p); simpl; rewrite <- ?app_assoc;
    rewrite ?app_nil_r; reflexivity.
Qed.

Lemma Variant_cmds_closed {R : Runtime} (now : string) (env : Env)
    (p : Variant.Plugin) :
  Variant.Exec_cmds now env p
  = [Variant.commandVersion; Variant.commandInfo]
    ++ map Variant.commandPull (CacheFrom (Variant.pBuild p))
    ++ [Variant.commandBuild now env (Variant.pBuild p)]
    ++ flat_map
         (fun tag =>
            Variant.commandTag (Variant.pBuild p) tag
            :: (if Variant.SkipPush p then []
                else [Variant.commandPush (Variant.pBuild p) tag]))
         (Tags (Variant.pBuild p))
    ++ (if Variant.Cleanup p
        then [Variant.commandRmi (Name (Variant.pBuild p))] else []).
Proof.
  unfold Variant.Exec_cmds.
  rewrite fold_left_singletons, fold_left_tag_push.
  destruct (Variant.Cleanup p); simpl; rewrite <- ?app_assoc;
    rewrite ?app_nil_r; reflexivity.
Qed.

Lemma commandBuild_tokens {R : Runtime} (now : string) (env : Env)
    (build : Build) :
  exists mid,
    cmdArgs (DockerGo.commandBuild now env build)
    = ["buildah"; "--storage-driver"; "vfs"; "bud"; "-f"; Dockerfile build]
      ++ mid ++ ["-t"; Name build; Context build]
    /\ cmdArgs (Variant.commandBuild now env build)
       = ["buildah"; "bud"; "--format"; "docker"; "-f"; Dockerfile build]
         ++ mid ++ ["-t"; Name build; Context build].
Proof.
  eexists. split.
  - unfold DockerGo.commandBuild, exec_Command; cbv zeta; cbn [cmdArgs].
    rewrite buildArgs_layout. cbn [app buildahExe]. do 6 f_equal.
    rewrite !app_assoc. reflexivity.
  - unfold Variant.commandBuild, exec_Command; cbv zeta; cbn [cmdArgs].
    rewrite buildArgs_layout. cbn [app buildahExe]. do 6 f_equal.
    rewrite !app_assoc. reflexivity.
Qed.

Lemma map_tag_push (A B : Type) (g : A -> B) (t p : string -> A)
    (skip : bool) (tags : list string) :
  map g (flat_map (fun tag => t tag :: (if skip then [] else [p tag])) tags)
  = flat_map (fun tag => g (t tag) :: (if skip then [] else [g (p tag)]))
             tags.
Proof.
  induction tags as [|x tags IH]; simpl; [reflexivity |].
  rewrite <- IH. destruct skip; simpl; [reflexivity |].
  reflexivity.
Qed.

(** C3.  The argument lists of the commands that [Exec] builds, for the
    plugin as [addProxyBuildArgs] leaves it, token by token: version,
    info, one pull per entry of [CacheFrom] in the order of the list and
    of that image, the build ([bud] with the Dockerfile, ending with [-t],
    the name and the context), then for each tag of [Tags] in order the
    tag command from [Name] to [Repo:tag] followed, unless [Dryrun] (in
    the variant [SkipPush]) is set, by the push of [Repo:tag], and at the
    end the removal of the image [Name] when [Cleanup] is set and nothing
    otherwise.  [CacheFrom], [Tags], [Name], [Repo], [Dockerfile] and
    [Context] are those of the plugin that [Exec] was given.  With
    [CacheFrom] a, b the list has pull a, pull b and then the build; with
    [Tags] v1, v2 and pushing, it has tag v1, push v1, tag v2, push v2
    after the build. *)
Theorem Exec_cmds_order {R : Runtime} (now : string) (env : Env) :
  (forall p : DockerGo.Plugin,
     let b := DockerGo.pBuild p in
     exists mid,
       map cmdArgs
         (DockerGo.Exec_cmds now env
            (DockerGo.set_Build p (addProxyBuildArgs env b)))
       = [ ["buildah"; "--storage-driver"; "vfs"; "version"];
           ["buildah"; "--storage-driver"; "vfs"; "info"] ]
         ++ map (fun img => ["buildah"; "--storage-driver"; "vfs"; "pull"; img])
                (CacheFrom b)
         ++ [ ["buildah"; "--storage-driver"; "vfs"; "bud"; "-f"; Dockerfile b]
              ++ mid ++ ["-t"; Name b; Context b] ]
         ++ flat_map
              (fun tag =>
                 ["buildah"; "--storage-driver"; "vfs"; "tag"; Name b;
                  Repo b +++ ":" +++ tag]
                 :: (if DockerGo.Dryrun p then []
                     else [ ["buildah"; "--storage-driver"; "vfs"; "push";
                             Repo b +++ ":" +++ tag] ]))
              (Tags b)
         ++ (if DockerGo.Cleanup p
             then [ ["buildah"; "--storage-driver"; "vfs"; "rmi"; Name b] ]
             else []))
  /\ (forall p : Variant.Plugin,
        let b := Variant.pBuild p in
        exists mid,
          map cmdArgs
            (Variant.Exec_cmds now env
               (Variant.set_Build p (addProxyBuildArgs env b)))
          = [ ["buildah"; "version"]; ["buildah"; "info"] ]
            ++ map (fun img => ["buildah"; "pull"; "--storage-driver"; "vfs";
                                img])
                   (CacheFrom b)
            ++ [ ["buildah"; "bud"; "--format"; "docker"; "-f"; Dockerfile b]
                 ++ mid ++ ["-t"; Name b; Context b] ]
            ++ flat_map
                 (fun tag =>
                    ["buildah"; "tag"; Name b; Repo b +++ ":" +++ tag]
                    :: (if Variant.SkipPush p then []
                        else [ ["buildah"; "push"; Repo b +++ ":" +++ tag] ]))
                 (Tags b)
            ++ (if Variant.Cleanup p then [ ["buildah"; "rmi"; Name b] ]
                else []))
  /\ (forall (p : DockerGo.Plugin) a b' pre post,
        CacheFrom (DockerGo.pBuild p) = [a; b'] ->
        map cmdArgs
          (DockerGo.Exec_cmds now env
             (DockerGo.set_Build p
                (addProxyBuildArgs env (DockerGo.pBuild p))))
        = pre ++ post ->
        List.length pre = 2 ->
        exists build rest,
          post = ["buildah"; "--storage-driver"; "vfs"; "pull"; a]
                 :: ["buildah"; "--storage-driver"; "vfs"; "pull"; b']
                 :: build :: rest
          /\ nth 3 build EmptyString = "bud")
  /\ (forall (p : DockerGo.Plugin) v1 v2,
        Tags (DockerGo.pBuild p) = [v1; v2] ->
        DockerGo.Dryrun p = false ->
        exists head build,
          nth 3 build EmptyString = "bud"
          /\ map cmdArgs
               (DockerGo.Exec_cmds now env
                  (DockerGo.set_Build p
                     (addProxyBuildArgs env (DockerGo.pBuild p))))
             = head ++ build
               :: ["buildah"; "--storage-driver"; "vfs"; "tag";
                   Name (DockerGo.pBuild p);
                   Repo (DockerGo.pBuild p) +++ ":" +++ v1]
               :: ["buildah"; "--storage-driver"; "vfs"; "push";
                   Repo (DockerGo.pBuild p) +++ ":" +++ v1]
               :: ["buildah"; "--storage-driver"; "vfs"; "tag";
                   Name (DockerGo.pBuild p);
                   Repo (DockerGo.pBuild p) +++ ":" +++ v2]
               :: ["buildah"; "--storage-driver"; "vfs"; "push";
                   Repo (DockerGo.pBuild p) +++ ":" +++ v2]
               :: (if DockerGo.Cleanup p
                   then [ ["buildah"; "--storage-driver"; "vfs"; "rmi";
                           Name (DockerGo.pBuild p)] ]
                   else [])).
Proof.
  assert (D : forall p : DockerGo.Plugin,
             let b := DockerGo.pBuild p in
             exists mid,
               map cmdArgs
                 (DockerGo.Exec_cmds now env
                    (DockerGo.set_Build p (addProxyBuildArgs env b)))
               = [ ["buildah"; "--storage-driver"; "vfs"; "version"];
                   ["buildah"; "--storage-driver"; "vfs"; "info"] ]
                 ++ map (fun img => ["buildah"; "--storage-driver"; "vfs";
                                     "pull"; img])
                        (CacheFrom b)
                 ++ [ ["buildah"; "--storage-driver"; "vfs"; "bud"; "-f";
                       Dockerfile b]
                      ++ mid ++ ["-t"; Name b; Context b] ]
                 ++ flat_map
                      (fun tag =>
                         ["buildah"; "--storage-driver"; "vfs"; "tag"; Name b;
                          Repo b +++ ":" +++ tag]
                         :: (if DockerGo.Dryrun p then []
                             else [ ["buildah"; "--storage-driver"; "vfs";
                                     "push"; Repo b +++ ":" +++ tag] ]))
                      (Tags b)
                 ++ (if DockerGo.Cleanup p
                     then [ ["buildah"; "--storage-driver"; "vfs"; "rmi";
                             Name b] ]
                     else [])).
  { intros p b.
    pose proof (addProxyBuildArgs_frame env b) as F.
    unfold sameButArgs in F.
    repeat match goal with H : _ /\ _ |- _ => destruct H as [?E H] end.
    destruct (commandBuild_tokens now env (addProxyBuildArgs env b))
      as (mid & Hd & _).
    exists mid. rewrite DockerGo_cmds_closed.
    cbn [DockerGo.pBuild DockerGo.set_Build DockerGo.Dryrun DockerGo.Cleanup].
    rewrite !map_app, map_map, map_tag_push. cbn [map]. rewrite Hd.
    unfold DockerGo.commandTag, DockerGo.commandPush, DockerGo.commandRmi,
      DockerGo.commandPull, exec_Command. cbv zeta. cbn [cmdArgs buildahExe].
    repeat match goal with
           | H : _ (addProxyBuildArgs env b) = _ |- _ => rewrite ?H; clear H
           end.
    destruct (DockerGo.Cleanup p); reflexivity. }
  split; [exact D |]. split; [| split].
  - intros p b.
    pose proof (addProxyBuildArgs_frame env b) as F.
    unfold sameButArgs in F.
    repeat match goal with H : _ /\ _ |- _ => destruct H as [?E H] end.
    destruct (commandBuild_tokens now env (addProxyBuildArgs env b))
      as (mid & _ & Hv).
    exists mid. rewrite Variant_cmds_closed.
    cbn [Variant.pBuild Variant.set_Build Variant.SkipPush Variant.Cleanup].
    rewrite !map_app, map_map, map_tag_push. cbn [map]. rewrite Hv.
    unfold Variant.commandTag, Variant.commandPush, Variant.commandRmi,
      Variant.commandPull, exec_Command. cbv zeta. cbn [cmdArgs buildahExe].
    repeat match goal with
           | H : _ (addProxyBuildArgs env b) = _ |- _ => rewrite ?H; clear H
           end.
    destruct (Variant.Cleanup p); reflexivity.
  - intros p a b' pre post Hc Heq Hlen.
    destruct (D p) as (mid & Hd). cbv zeta in Hd. rewrite Hd, Hc in Heq.
    destruct pre as [|x [|y [|z pre]]]; try discriminate.
    cbn in Heq. injection Heq as _ _ <-.
    eexists. eexists. split; reflexivity.
  - intros p v1 v2 Ht Hdry.
    destruct (D p) as (mid & Hd). cbv zeta in Hd.
    rewrite Hd, Ht, Hdry.
    eexists. eexists. split; [| rewrite app_assoc; apply f_equal2;
                                 [reflexivity | cbn; reflexivity]].
    reflexivity.
Qed.

(** The instance of the specification: two cache images and two tags. *)
Lemma Exec_cmds_two_and_two :
  map cmdArgs
    (@DockerGo.Exec_cmds quiet "2024-05-06T07:08:09Z" (envOf []) samplePlugin)
  = [ ["buildah"; "--storage-driver"; "vfs"; "version"];
      ["buildah"; "--storage-driver"; "vfs"; "info"];
      ["buildah"; "--storage-driver"; "vfs"; "pull"; "a"];
      ["buildah"; "--storage-driver"; "vfs"; "pull"; "b"];
      ["buildah"; "--storage-driver"; "vfs"; "bud"; "-f"; "Dockerfile";
       "--cache-from"; "a"; "--cache-from"; "b"; "-t"; "img"; "."];
      ["buildah"; "--storage-driver"; "vfs"; "tag"; "img"; "r/app:v1"];
      ["buildah"; "--storage-driver"; "vfs"; "push"; "r/app:v1"];
      ["buildah"; "--storage-driver"; "vfs"; "tag"; "img"; "r/app:v2"];
      ["buildah"; "--storage-driver"; "vfs"; "push"; "r/app:v2"];
      ["buildah"; "--storage-driver"; "vfs"; "rmi"; "img"] ].
Proof. reflexivity. Qed.

(** ** Pushes and the tags before them *)

Lemma subcommand_commandBuild {R : Runtime} (now : string) (env : Env)
    (build : Build) :
  subcommand (DockerGo.commandBuild now env build) = "bud".
Proof.
  unfold subcommand, DockerGo.commandBuild, exec_Command; cbv zeta;
    cbn [cmdArgs].
  rewrite buildArgs_layout. reflexivity.
Qed.

(** Inside the block of tag and push commands, a push stands right after
    the tag command of its own tag. *)
Lemma push_after_tag_block (build : Build) (skip : bool) (tags : list string) :
  forall k c,
    nth_error
      (flat_map (fun tag =>
                   DockerGo.commandTag build tag
                   :: (if skip then [] else [DockerGo.commandPush build tag]))
                tags) k = Some c ->
    subcommand c = "push" ->
    exists tag j,
      In tag tags /\ c = DockerGo.commandPush build tag /\ k = S j
      /\ nth_error
           (flat_map (fun tag =>
                        DockerGo.commandTag build tag
                        :: (if skip then []
                            else [DockerGo.commandPush build tag]))
                     tags) j
         = Some (DockerGo.commandTag build tag).
Proof.
  induction tags as [|t tags IH]; intros k c Hk Hp.
  - destruct k; discriminate.
  - destruct k as [|k]; simpl in Hk.
    + injection Hk as <-. discriminate.
    + destruct skip; simpl in Hk.
      * destruct (IH _ _ Hk Hp) as (tag & j & Hin & Hc & Hj & Hprev).
        exists tag, (S j). simpl. repeat split; auto; congruence.
      * destruct k as [|k]; simpl in Hk.
        -- injection Hk as <-. exists t, 0. simpl. repeat split; auto.
        -- destruct (IH _ _ Hk Hp) as (tag & j & Hin & Hc & Hj & Hprev).
           exists tag, (S (S j)). simpl. repeat split; auto; congruence.
Qed.

(** C10.  In the list of commands of [Exec], every command whose
    subcommand is [push] has the target [Repo:tag] for a tag of [Tags],
    and the command right before it in the list is the tag command with
    the source [Name] and that same target.  So a pushed reference is the
    one the command before it has just made, and it is built from [Repo],
    not from [Name]. *)
Theorem push_follows_its_tag {R : Runtime} (now : string) (env : Env)
    (p : DockerGo.Plugin) (i : nat) (c : Cmd) :
  nth_error (DockerGo.Exec_cmds now env p) i = Some c ->
  subcommand c = "push" ->
  exists tag j prev,
    In tag (Tags (DockerGo.pBuild p))
    /\ cmdArgs c
       = ["buildah"; "--storage-driver"; "vfs"; "push";
          Repo (DockerGo.pBuild p) +++ ":" +++ tag]
    /\ i = S j
    /\ nth_error (DockerGo.Exec_cmds now env p) j = Some prev
    /\ cmdArgs prev
       = ["buildah"; "--storage-driver"; "vfs"; "tag";
          Name (DockerGo.pBuild p);
          Repo (DockerGo.pBuild p) +++ ":" +++ tag].
Proof.
  rewrite DockerGo_cmds_closed.
  set (build := DockerGo.pBuild p).
  set (head := [DockerGo.commandVersion; DockerGo.commandInfo]
               ++ map DockerGo.commandPull (CacheFrom build)
               ++ [DockerGo.commandBuild now env build]).
  set (block := flat_map _ (Tags build)).
  set (tail := if DockerGo.Cleanup p then _ else _).
  replace (_ ++ _ ++ _ ++ block ++ tail) with (head ++ block ++ tail)
    by (unfold head; rewrite <- !app_assoc; reflexivity).
  intros Hi Hp.
  assert (Hhead : forall x, In x head -> subcommand x <> "push").
  { intros x Hx. unfold head in Hx.
    rewrite !in_app_iff, in_map_iff in Hx.
    destruct Hx as [[<- | [<- | []]] | [(r & <- & _) | [<- | []]]];
      try discriminate.
    rewrite subcommand_commandBuild. discriminate. }
  assert (Htail : forall x, In x tail -> subcommand x <> "push").
  { intros x Hx. unfold tail in Hx.
    destruct (DockerGo.Cleanup p); [| destruct Hx].
    destruct Hx as [<- | []]. discriminate. }
  destruct (Nat.lt_ge_cases i (List.length head)) as [Hlt | Hge].
  - rewrite nth_error_app1 in Hi by exact Hlt.
    apply nth_error_In in Hi. now apply Hhead in Hi.
  - rewrite nth_error_app2 in Hi by exact Hge.
    destruct (Nat.lt_ge_cases (i - List.length head) (List.length block))
      as [Hlt' | Hge'].
    + rewrite nth_error_app1 in Hi by exact Hlt'.
      destruct (@push_after_tag_block build (DockerGo.Dryrun p) (Tags build)
                  _ _ Hi Hp) as (tag & j & Hin & Hc & Hj & Hprev).
      exists tag, (List.length head + j), (DockerGo.commandTag build tag).
      split; [exact Hin |]. split; [now rewrite Hc |].
      split; [lia |]. split; [| reflexivity].
      rewrite nth_error_app2 by lia.
      replace (List.length head + j - List.length head) with j by lia.
      rewrite nth_error_app1; [exact Hprev |].
      apply nth_error_Some. fold block in Hprev. rewrite Hprev. discriminate.
    + rewrite nth_error_app2 in Hi by exact Hge'.
      apply nth_error_In in Hi. now apply Htail in Hi.
Qed.

Lemma push_follows_its_tag_witness :
  exists tag j prev,
    In tag ["v1"; "v2"]
    /\ cmdArgs (DockerGo.commandPush sampleBuild "v2")
       = ["buildah"; "--storage-driver"; "vfs"; "push"; "r/app" +++ ":" +++ tag]
    /\ 8 = S j
    /\ nth_error
         (@DockerGo.Exec_cmds quiet "2024-05-06T07:08:09Z" (envOf [])
            samplePlugin) j
       = Some prev
    /\ cmdArgs prev
       = ["buildah"; "--storage-driver"; "vfs"; "tag"; "img";
          "r/app" +++ ":" +++ tag].
Proof.
  exact (@push_follows_its_tag quiet "2024-05-06T07:08:09Z" (envOf [])
           samplePlugin 8 (DockerGo.commandPush sampleBuild "v2")
           eq_refl eq_refl).
Defined.

(** ** Failures of commands *)

Lemma forEach_app {R : Runtime} (A : Type) (body : A -> M unit)
    (l1 l2 : list A) (s s1 : State) :
  forEach l1 body s = (s1, Go tt) ->
  forEach (l1 ++ l2) body s = forEach l2 body s1.
Proof.
  revert s; induction l1 as [|x l1 IH]; intros s H; simpl in *.
  - unfold ret in H. now injection H as ->.
  - unfold bind in *. destruct (body x s) as [s' [[] | e]].
    + now apply IH.
    + discriminate.
Qed.

Lemma Variant_commandBuild_args {R : Runtime} (now : string) (env : Env)
    (build : Build) :
  exists more,
    cmdArgs (Variant.commandBuild now env build)
    = "buildah" :: "bud" :: "--format" :: "docker" :: more.
Proof.
  unfold Variant.commandBuild, exec_Command; cbv zeta; cbn [cmdArgs].
  rewrite buildArgs_layout. eexists. reflexivity.
Qed.

(** The commands of the variant whose failure the loop does not pass
    over: none of the three tests of [Exec_run] holds for them. *)
Lemma Variant_not_tolerated {R : Runtime} (cmd : Cmd) :
  cmd = Variant.commandVersion \/ cmd = Variant.commandInfo
  \/ (exists now env build, cmd = Variant.commandBuild now env build)
  \/ (exists build tag, cmd = Variant.commandPush build tag)
  \/ (exists build tag,
        cmd = Variant.commandTag build tag /\ Name build <> "prune") ->
  Variant.isCommandPull (cmdArgs cmd) = false
  /\ Variant.isCommandPrune (cmdArgs cmd) = false
  /\ Variant.isCommandRmi (cmdArgs cmd) = false.
Proof.
  intros [-> | [-> | [(now & env & b & ->) | [(b & t & ->)
                                             | (b & t & -> & Hn)]]]];
    try (repeat split; reflexivity).
  - destruct (Variant_commandBuild_args now env b) as (more & ->).
    repeat split; reflexivity.
  - repeat split; try reflexivity.
    unfold Variant.isCommandPrune, Variant.commandTag, Variant.index; simpl.
    now apply String.eqb_neq.
Qed.

(** C1, as the claim has it, fails on docker.go: with one cache image
    whose pull fails, [Exec] returns the error of the pull, and the
    commands that were run are version, info and the pull; the build was
    never started. *)
Lemma Exec_pull_failure_aborts :
  snd (@DockerGo.Exec (scripted (fun cmd => String.eqb (subcommand cmd) "pull"))
         {| DockerGo.pLogin := emptyLogin;
            DockerGo.pBuild := sampleBuild;
            DockerGo.Dryrun := false; DockerGo.Cleanup := false |}
         (start _ (envOf [])))
  = Some (ErrorfW
            ("command failed: buildah --storage-driver vfs pull a" +++ nl
             +++ "error: exit status 125")
            (LibError "exit status 125"))
  /\ map cmdArgs
       (st_world
          (fst (@DockerGo.Exec
                  (scripted (fun cmd => String.eqb (subcommand cmd) "pull"))
                  {| DockerGo.pLogin := emptyLogin;
                     DockerGo.pBuild := sampleBuild;
                     DockerGo.Dryrun := false; DockerGo.Cleanup := false |}
                  (start _ (envOf [])))))
     = [ ["buildah"; "--storage-driver"; "vfs"; "version"];
         ["buildah"; "--storage-driver"; "vfs"; "info"];
         ["buildah"; "--storage-driver"; "vfs"; "pull"; "a"] ].
Proof. split; vm_compute; reflexivity. Qed.

(** C1, amended.  Let the command [cmd] fail with [err] when it is run in
    the state [s].

    In docker.go the loop of [Exec] stops at any failing command, a pull
    and the removal of the image included, and returns the error wrapped
    in the text [command failed: ...]; a failing login returns the error
    wrapped in [error authenticating: ...], and nothing after it runs.

    In the variant a failing pull and a failing removal of the image are
    logged and the loop goes on with the next command; a failing version,
    info, build or push, and a failing tag command when the name of the
    build is not [prune], stop the loop, which returns [err] itself; a
    failing login returns [error authenticating: ...].

    In both, the commands before [cmd] that ended without a returned error
    leave the loop at [cmd]. *)
Theorem Exec_failure_policy {R : Runtime}
    (cmd : Cmd) (rest : list Cmd) (s : State) (w : World) (err : error) :
  cmd_Run cmd (st_world s) = (w, Some err) ->
  let failed := moved w (printed (traceLine cmd) s) in
  DockerGo.Exec_run (cmd :: rest) s
  = (failed,
     Return (ErrorfW ("command failed: " +++ Join (cmdArgs cmd) " " +++ nl
                      +++ "error: " +++ Error err) err))
  /\ (forall login (after : M unit),
        cmd = DockerGo.commandLogin login ->
        (DockerGo.dockerLogin login ;; after) s
        = (moved w s,
           Return (ErrorfW ("error authenticating: " +++ Error err) err)))
  /\ (forall repo,
        cmd = Variant.commandPull repo ->
        Variant.Exec_run (cmd :: rest) s
        = Variant.Exec_run rest
            (printed ("Could not pull cache-from image --storage-driver"
                      +++ ". Ignoring..." +++ nl) failed))
  /\ (forall tag,
        cmd = Variant.commandRmi tag ->
        Variant.Exec_run (cmd :: rest) s
        = Variant.Exec_run rest
            (printed ("Could not remove image " +++ tag
                      +++ ". Ignoring..." +++ nl) failed))
  /\ (cmd = Variant.commandVersion \/ cmd = Variant.commandInfo
      \/ (exists now env build, cmd = Variant.commandBuild now env build)
      \/ (exists build tag, cmd = Variant.commandPush build tag)
      \/ (exists build tag,
            cmd = Variant.commandTag build tag /\ Name build <> "prune") ->
      Variant.Exec_run (cmd :: rest) s = (failed, Return err))
  /\ (forall (p : Variant.Plugin) (after : M unit),
        isSet (Password (Variant.pLogin p)) = true ->
        cmd = Variant.commandLogin (Variant.pLogin p) ->
        (Variant.Exec_login p ;; after) s
        = (moved w s,
           Return (Errorf ("error authenticating: " +++ Error err))))
  /\ (forall before s0,
        DockerGo.Exec_run before s0 = (s, Go tt) ->
        DockerGo.Exec_run (before ++ cmd :: rest) s0
        = DockerGo.Exec_run (cmd :: rest) s)
  /\ (forall before s0,
        Variant.Exec_run before s0 = (s, Go tt) ->
        Variant.Exec_run (before ++ cmd :: rest) s0
        = Variant.Exec_run (cmd :: rest) s).
Proof.
  intros Hrun failed.
  assert (Hv : forall text,
             Variant.isCommandPull (cmdArgs cmd) = true
             /\ text = "Could not pull cache-from image "
                       +++ Variant.index (cmdArgs cmd) 2
                       +++ ". Ignoring..." +++ nl
             \/ Variant.isCommandPull (cmdArgs cmd) = false
                /\ Variant.isCommandPrune (cmdArgs cmd) = false
                /\ Variant.isCommandRmi (cmdArgs cmd) = true
                /\ text = "Could not remove image "
                          +++ Variant.index (cmdArgs cmd) 2
                          +++ ". Ignoring..." +++ nl ->
             Variant.Exec_run (cmd :: rest) s
             = Variant.Exec_run rest (printed text failed)).
  { intros text H. unfold Variant.Exec_run at 1. simpl.
    unfold bind, trace, fmt_Print, call. simpl. fold (traceLine cmd).
    rewrite Hrun.
    destruct H as [[-> ->] | (-> & -> & -> & ->)]; reflexivity. }
  repeat apply conj.
  - unfold DockerGo.Exec_run. simpl.
    unfold bind, trace, fmt_Print, call. simpl. rewrite Hrun. reflexivity.
  - intros login after ->.
    unfold DockerGo.dockerLogin, bind, call. cbv zeta. rewrite Hrun.
    reflexivity.
  - intros repo ->. apply Hv. left. split; reflexivity.
  - intros tag ->. apply Hv. right. repeat split; reflexivity.
  - intro H. apply Variant_not_tolerated in H. destruct H as (H1 & H2 & H3).
    unfold Variant.Exec_run. simpl.
    unfold bind, trace, fmt_Print, call. simpl. fold (traceLine cmd).
    rewrite Hrun, H1, H2, H3. reflexivity.
  - intros p after Hp ->.
    unfold Variant.Exec_login. rewrite Hp.
    unfold bind, call. cbv zeta. rewrite Hrun. reflexivity.
  - intros before s0 H. now apply forEach_app.
  - intros before s0 H. now apply forEach_app.
Qed.

Lemma Exec_failure_policy_witness :
  @Variant.Exec_run
    (scripted (fun cmd => Variant.isCommandPull (cmdArgs cmd)))
    [Variant.commandPull "a"] (start _ (envOf []))
  = @Variant.Exec_run
      (scripted (fun cmd => Variant.isCommandPull (cmdArgs cmd)))
      []
      (printed ("Could not pull cache-from image --storage-driver"
                +++ ". Ignoring..." +++ nl)
         (@moved (scripted (fun cmd => Variant.isCommandPull (cmdArgs cmd)))
            [Variant.commandPull "a"]
            (printed (traceLine (Variant.commandPull "a"))
               (start _ (envOf []))))).
Proof.
  exact (proj1 (proj2 (proj2
    (@Exec_failure_policy
       (scripted (fun cmd => Variant.isCommandPull (cmdArgs cmd)))
       (Variant.commandPull "a") [] (start _ (envOf []))
       [Variant.commandPull "a"] (LibError "exit status 125") eq_refl)))
    "a" eq_refl).
Defined.

(** The variant run as a whole with two cache images whose pulls fail:
    [Exec] returns no error, and every command of the list was run. *)
Example Variant_Exec_pull_failures_tolerated :
  snd (@Variant.Exec
         (scripted (fun cmd => Variant.isCommandPull (cmdArgs cmd)))
         {| Variant.pLogin := emptyLogin; Variant.pBuild := sampleBuild;
            Variant.SkipPush := false; Variant.Cleanup := true |}
         (start _ (envOf [])))
  = None
  /\ map cmdArgs
       (st_world
          (fst (@Variant.Exec
                  (scripted (fun cmd => Variant.isCommandPull (cmdArgs cmd)))
                  {| Variant.pLogin := emptyLogin;
                     Variant.pBuild := sampleBuild;
                     Variant.SkipPush := false; Variant.Cleanup := true |}
                  (start _ (envOf [])))))
     = [ ["buildah"; "version"]; ["buildah"; "info"];
         ["buildah"; "pull"; "--storage-driver"; "vfs"; "a"];
         ["buildah"; "pull"; "--storage-driver"; "vfs"; "b"];
         ["buildah"; "bud"; "--format"; "docker"; "-f"; "Dockerfile";
          "--cache-from"; "a"; "--cache-from"; "b"; "-t"; "img"; "."];
         ["buildah"; "tag"; "img"; "r/app:v1"];
         ["buildah"; "push"; "r/app:v1"];
         ["buildah"; "tag"; "img"; "r/app:v2"];
         ["buildah"; "push"; "r/app:v2"];
         ["buildah"; "rmi"; "img"] ].
Proof. split; vm_compute; reflexivity. Qed.

(** What the amended C1 leaves open.  The test [isCommandPrune] of the
    variant looks at the third token of any command of more than three
    tokens; for a tag command that token is the name of the build.  With
    a build named [prune], a failing tag command is passed over and the
    push after it is run. *)
Example Variant_tag_failure_passed_over :
  snd (@Variant.Exec
         (scripted (fun cmd => String.eqb (Variant.index (cmdArgs cmd) 1) "tag"))
         {| Variant.pLogin := emptyLogin;
            Variant.pBuild :=
              {| Remote := EmptyString; Name := "prune";
                 Dockerfile := "Dockerfile"; Context := "."; Tags := ["v1"];
                 Args := []; ArgsEnv := []; Target := EmptyString;
                 Squash := false; Pull := false; CacheFrom := [];
                 Compress := false; Repo := "r/app"; LabelSchema := [];
                 AutoLabel := false; Labels := []; Link := EmptyString;
                 NoCache := false; AddHost := []; Quiet := false;
                 S3CacheDir := EmptyString; S3Bucket := EmptyString;
                 S3Endpoint := EmptyString; S3Region := EmptyString;
                 S3Key := EmptyString; S3Secret := EmptyString;
                 S3UseSSL := false; Layers := false |};
            Variant.SkipPush := false; Variant.Cleanup := false |}
         (start _ (envOf [])))
  = None.
Proof. vm_compute. reflexivity. Qed.

(** ** More on the proxy build args *)

Section ProxyMore.

Context {R : Runtime}.

Lemma proxyPair_after (env : Env) (args new : list string) (key : string) :
  existsb (fun s => HasPrefix s key || HasPrefix s (ToUpper key)) new = false ->
  proxyPair env (args ++ new) key = proxyPair env args key.
Proof.
  intro H. unfold proxyPair. now rewrite existsb_app, H, orb_false_r.
Qed.

(** The entries made for one proxy key begin with neither spelling of
    another proxy key. *)
Lemma proxyPair_foreign (env : Env) (args : list string) (k1 k2 : string) :
  In (k1, k2) [ ("http_proxy", "https_proxy"); ("http_proxy", "no_proxy");
                ("https_proxy", "no_proxy") ] ->
  existsb (fun s => HasPrefix s k2 || HasPrefix s (ToUpper k2))
          (proxyPair env args k1) = false.
Proof.
  intro H. unfold proxyPair.
  destruct (nonempty (getProxyValue env k1) && negb (existsb _ args));
    [| reflexivity].
  simpl in H.
  destruct H as [H | [H | [H | []]]]; injection H as <- <-; reflexivity.
Qed.

(** X1.  The three injections of [addProxyBuildArgs] do not see one
    another: each key is decided against the args the build came with, so
    the result is those args followed by the pair of each key that has a
    value and for which none of those args begins with the key or with
    the upper-cased key, in the order http, https, no. *)
Theorem addProxyBuildArgs_independent (env : Env) (build : Build) :
  Args (addProxyBuildArgs env build)
  = Args build
    ++ proxyPair env (Args build) "http_proxy"
    ++ proxyPair env (Args build) "https_proxy"
    ++ proxyPair env (Args build) "no_proxy"
  /\ List.length (Args (addProxyBuildArgs env build))
     <= List.length (Args build) + 6.
Proof.
  assert (E : Args (addProxyBuildArgs env build)
              = Args build
                ++ proxyPair env (Args build) "http_proxy"
                ++ proxyPair env (Args build) "https_proxy"
                ++ proxyPair env (Args build) "no_proxy").
  { unfold addProxyBuildArgs. rewrite !addProxyValue_Args.
    rewrite (@proxyPair_after env (Args build) _ "https_proxy")
      by (apply proxyPair_foreign; simpl; auto).
    rewrite (@proxyPair_after env (Args build ++ _) _ "no_proxy")
      by (apply proxyPair_foreign; simpl; auto).
    rewrite (@proxyPair_after env (Args build) _ "no_proxy")
      by (apply proxyPair_foreign; simpl; auto).
    rewrite <- !app_assoc. reflexivity. }
  split; [exact E |].
  rewrite E, !length_app.
  assert (L : forall k, List.length (proxyPair env (Args build) k) <= 2).
  { intro k. unfold proxyPair, when.
    destruct (_ && _); simpl; lia. }
  pose proof (L "http_proxy"). pose proof (L "https_proxy").
  pose proof (L "no_proxy"). lia.
Qed.

(** X2.  A name with no value in the environment, neither as written nor
    upper-cased, adds nothing: for keys that are all unset the injection
    returns the build as it is, and [commandBuild] then passes the explicit
    args alone. *)
Theorem addProxyValue_unset (env : Env) (keys : list string) (build : Build) :
  (forall key, In key keys ->
     Getenv env key = EmptyString /\ Getenv env (ToUpper key) = EmptyString) ->
  fold_left (fun build arg => addProxyValue env build arg) keys build = build.
Proof.
  revert build; induction keys as [|k keys IH]; intros build H; simpl.
  - reflexivity.
  - rewrite settled_fixed.
    + apply IH. intros key Hk. apply H. now right.
    + left. destruct (H k (or_introl eq_refl)) as [H1 H2].
      unfold getProxyValue. now rewrite H1, H2.
Qed.

Lemma mapBytes_upper_fixed (s : string) :
  hasLower s = false -> mapBytes upperByte s = s.
Proof.
  induction s as [|c s IH]; simpl; intro H; [reflexivity |].
  apply orb_false_iff in H. destruct H as [Hc Hs].
  rewrite (IH Hs). unfold upperByte. cbv zeta in Hc |- *. now rewrite Hc.
Qed.

(** X3.  For a name of ASCII bytes without a lower-case letter, such as
    the usual names of environment variables, [strings.ToUpper] gives the
    name back, so [addProxyValue] appends the same entry twice. *)
Theorem addProxyValue_upper_case_twice
    (env : Env) (build : Build) (key : string) :
  isASCII key = true ->
  hasLower key = false ->
  Getenv env key <> EmptyString ->
  hasProxyBuildArg build key = false ->
  ToUpper key = key
  /\ Args (addProxyValue env build key)
     = Args build ++ [ key +++ "=" +++ Getenv env key;
                       key +++ "=" +++ Getenv env key ].
Proof.
  intros Hascii Hlow Hv Hh.
  assert (U : ToUpper key = key).
  { unfold ToUpper. rewrite Hascii. now apply mapBytes_upper_fixed. }
  split; [exact U |].
  rewrite addProxyValue_Args. unfold proxyPair.
  unfold hasProxyBuildArg in Hh. rewrite Hh, U.
  unfold getProxyValue. apply nonempty_iff in Hv. rewrite Hv, Hv. reflexivity.
Qed.

Lemma settled_kept_keys (env : Env) (keys : list string) (key : string) :
  forall build,
    settled env build key ->
    settled env
      (fold_left (fun build arg => addProxyValue env build arg) keys build) key.
Proof.
  induction keys as [|k keys IH]; intros build H; simpl; [exact H |].
  apply IH. now apply settled_kept.
Qed.

Lemma settled_after_keys (env : Env) (keys : list string) (key : string) :
  forall build,
    In key keys ->
    settled env
      (fold_left (fun build arg => addProxyValue env build arg) keys build) key.
Proof.
  induction keys as [|k keys IH]; intros build H; simpl; [destruct H |].
  destruct H as [-> | H].
  - apply settled_kept_keys. apply settled_made.
  - now apply IH.
Qed.

Lemma settled_keys_fixed (env : Env) (keys : list string) :
  forall build,
    (forall key, In key keys -> settled env build key) ->
    fold_left (fun build arg => addProxyValue env build arg) keys build = build.
Proof.
  induction keys as [|k keys IH]; intros build H; simpl; [reflexivity |].
  rewrite settled_fixed by (apply H; now left).
  apply IH. intros key Hk. apply H. now right.
Qed.

(** X4.  Injecting a list of names is idempotent, whatever the names: a
    second pass over the same list, and any later injection of one of its
    names, leaves the build as the first pass made it.  So a name listed
    twice in [ArgsEnv] is injected once, and a proxy key listed in
    [ArgsEnv] adds nothing after [addProxyBuildArgs]. *)
Theorem injection_idempotent (env : Env) (keys : list string) (build : Build) :
  let once :=
    fold_left (fun build arg => addProxyValue env build arg) keys build in
  fold_left (fun build arg => addProxyValue env build arg) keys once = once
  /\ fold_left (fun build arg => addProxyValue env build arg) (keys ++ keys)
               build = once
  /\ (forall key, In key keys -> addProxyValue env once key = once)
  /\ (forall key, In key proxyKeys ->
        addProxyValue env (addProxyBuildArgs env build) key
        = addProxyBuildArgs env build).
Proof.
  intro once.
  assert (S1 : forall key, In key keys -> settled env once key).
  { intros key Hk. now apply settled_after_keys. }
  assert (E : fold_left (fun build arg => addProxyValue env build arg)
                        keys once = once).
  { now apply settled_keys_fixed. }
  split; [exact E |]. split; [| split].
  - rewrite fold_left_app. exact E.
  - intros key Hk. apply settled_fixed. now apply S1.
  - intros key Hk. apply settled_fixed.
    change (addProxyBuildArgs env build)
      with (fold_left (fun build arg => addProxyValue env build arg)
                      proxyKeys build).
    now apply settled_after_keys.
Qed.

End ProxyMore.

Lemma addProxyValue_unset_witness :
  fold_left (fun build arg => @addProxyValue quiet (envOf []) build arg)
            ["FOO"; "http_proxy"] sampleBuild
  = sampleBuild.
Proof.
  apply (@addProxyValue_unset quiet (envOf []) ["FOO"; "http_proxy"]
           sampleBuild).
  intros key _. split; reflexivity.
Defined.

Lemma addProxyValue_upper_case_twice_witness :
  Args (@addProxyValue quiet (envOf [("FOO", "x")]) sampleBuild "FOO")
  = ["FOO=x"; "FOO=x"].
Proof.
  refine (proj2 (@addProxyValue_upper_case_twice quiet (envOf [("FOO", "x")])
                   sampleBuild "FOO" eq_refl eq_refl _ eq_refl)).
  simpl. discriminate.
Defined.

(** ** Rules for the statements of [Exec] *)

Section Rules.

Context {R : Runtime}.

Lemma touches_bind (K : list string) (A B : Type) (m : M A) (k : A -> M B) :
  touches K m -> (forall a, touches K (k a)) -> touches K (bind m k).
Proof.
  intros Hm Hk s x Hx. unfold bind.
  specialize (Hm s x Hx). destruct (m s) as [s1 [a | e]]; simpl in *.
  - rewrite (Hk a s1 x Hx). exact Hm.
  - exact Hm.
Qed.

Lemma touches_ret (K : list string) (A : Type) (a : A) : touches K (ret a).
Proof. intros s x _. reflexivity. Qed.

Lemma touches_returnErr (K : list string) (A : Type) (e : error) :
  touches K (@returnErr R A e).
Proof. intros s x _. reflexivity. Qed.

Lemma touches_call (K : list string) (A : Type) (f : World -> World * A) :
  touches K (call f).
Proof. intros s x _. unfold call. now destruct (f (st_world s)). Qed.

Lemma touches_Print (K : list string) (text : string) :
  touches K (fmt_Print text).
Proof. intros s x _. reflexivity. Qed.

Lemma touches_environ (K : list string) : touches K environ.
Proof. intros s x _. reflexivity. Qed.

Lemma touches_time_Now (K : list string) : touches K time_Now.
Proof. intros s x _. reflexivity. Qed.

Lemma touches_Setenv (K : list string) (key value : string) :
  In key K -> touches K (os_Setenv key value).
Proof.
  intros Hin s x Hx. unfold os_Setenv, Setenv; simpl.
  destruct (String.eqb_spec x key) as [-> | _]; [now elim Hx | reflexivity].
Qed.

Lemma touches_forEach (K : list string) (A : Type) (body : A -> M unit)
    (l : list A) :
  (forall x, touches K (body x)) -> touches K (forEach l body).
Proof.
  intro H. induction l as [|x l IH]; simpl.
  - apply touches_ret.
  - apply touches_bind; [apply H | intros _; exact IH].
Qed.

Lemma raises_bind (P : error -> Prop) (A B : Type) (Q : A -> Prop)
    (m : M A) (k : A -> M B) :
  yields Q m -> raises P m -> (forall a, Q a -> raises P (k a)) ->
  raises P (bind m k).
Proof.
  intros Hy Hm Hk s e. unfold bind.
  specialize (Hy s). specialize (Hm s).
  destruct (m s) as [s1 [a | e1]]; simpl in *.
  - apply Hk. now apply Hy.
  - intro H. apply Hm. now injection H as <-.
Qed.

Lemma yields_any (A : Type) (m : M A) : yields (fun _ => True) m.
Proof. intros s a _. exact I. Qed.

Lemma raises_ret (P : error -> Prop) (A : Type) (a : A) : raises P (ret a).
Proof. intros s e H. discriminate. Qed.

Lemma raises_returnErr (P : error -> Prop) (A : Type) (e : error) :
  P e -> raises P (@returnErr R A e).
Proof. intros H s e' E. simpl in E. now injection E as <-. Qed.

Lemma raises_call (P : error -> Prop) (A : Type) (f : World -> World * A) :
  raises P (call f).
Proof. intros s e. unfold call. destruct (f (st_world s)). discriminate. Qed.

Lemma raises_Print (P : error -> Prop) (text : string) :
  raises P (fmt_Print text).
Proof. intros s e H. discriminate. Qed.

Lemma raises_Setenv (P : error -> Prop) (key value : string) :
  raises P (os_Setenv key value).
Proof. intros s e H. discriminate. Qed.

Lemma raises_environ (P : error -> Prop) : raises P environ.
Proof. intros s e H. discriminate. Qed.

Lemma raises_time_Now (P : error -> Prop) : raises P time_Now.
Proof. intros s e H. discriminate. Qed.

Lemma raises_forEach (P : error -> Prop) (A : Type) (body : A -> M unit)
    (l : list A) :
  (forall x, In x l -> raises P (body x)) -> raises P (forEach l body).
Proof.
  induction l as [|x l IH]; intro H; simpl.
  - apply raises_ret.
  - apply raises_bind with (Q := fun _ => True).
    + apply yields_any.
    + apply H. now left.
    + intros _ _. apply IH. intros y Hy. apply H. now right.
Qed.

Lemma yields_call (A : Type) (f : World -> World * A) (Q : A -> Prop) :
  (forall w, Q (snd (f w))) -> yields Q (call f).
Proof.
  intros H s a. unfold call. specialize (H (st_world s)).
  destruct (f (st_world s)) as [w b]; simpl in *. intro E.
  now injection E as <-.
Qed.

End Rules.

(** The statements of [Exec] taken apart by the rules above. *)
Ltac blocks :=
  unfold DockerGo.Exec_body, DockerGo.createAuthConfig, DockerGo.dockerLogin,
    DockerGo.Exec_run, Variant.Exec_body, Variant.Exec_login,
    Variant.Exec_run, trace.

Ltac touch :=
  repeat first
    [ apply touches_ret | apply touches_returnErr | apply touches_call
    | apply touches_Print | apply touches_environ | apply touches_time_Now
    | apply touches_Setenv; simpl; tauto
    | apply touches_forEach; intro
    | apply touches_bind; [| intro]
    | match goal with
      | |- touches _ (match ?x with _ => _ end) => destruct x
      end
    | progress cbv zeta ].

(** ** The environment that [Exec] leaves *)

Section ExecEnv.

Context {R : Runtime}.

Lemma fst_returned (m : M unit) (s : State) : fst (returned m s) = fst (m s).
Proof. unfold returned. now destruct (m s) as [s' [[] | e]]. Qed.

Lemma snd_returned_None (m : M unit) (s : State) :
  snd (returned m s) = None <-> snd (m s) = Go tt.
Proof.
  unfold returned. destruct (m s) as [s' [[] | e]]; simpl; split; intro H;
    try reflexivity; discriminate.
Qed.

Lemma bind_call (A B : Type) (f : World -> World * A) (k : A -> M B)
    (s : State) :
  bind (call f) k s
  = k (snd (f (st_world s))) (moved (fst (f (st_world s))) s).
Proof. unfold bind, call. now destruct (f (st_world s)). Qed.

Lemma DockerGo_touches (p : DockerGo.Plugin) :
  touches ["STORAGE_DRIVER"; "CONTAINERS_STORAGE_CONF"; "REGISTRY_AUTH_FILE"]
          (DockerGo.Exec_body p).
Proof. blocks. touch. Qed.

Lemma Variant_touches (p : Variant.Plugin) :
  touches ["STORAGE_DRIVER"; "BUILDAH_ISOLATION"; "CONTAINERS_STORAGE_CONF"]
          (Variant.Exec_body p).
Proof. blocks. touch. Qed.

(** X5.  Whatever happens, [Exec] of docker.go leaves [STORAGE_DRIVER]
    at [vfs] and writes no variable other than [STORAGE_DRIVER],
    [CONTAINERS_STORAGE_CONF] and [REGISTRY_AUTH_FILE], the last only when
    an auth config was given.  When it returns no error,
    [CONTAINERS_STORAGE_CONF] is the path of the storage.conf it wrote and,
    with an auth config, [REGISTRY_AUTH_FILE] the path of the auth file. *)
Theorem DockerGo_Exec_environment (p : DockerGo.Plugin) (s : State) :
  let s' := fst (DockerGo.Exec p s) in
  st_env s' "STORAGE_DRIVER" = "vfs"
  /\ (forall k,
        k <> "STORAGE_DRIVER" -> k <> "CONTAINERS_STORAGE_CONF" ->
        k <> "REGISTRY_AUTH_FILE" -> st_env s' k = st_env s k)
  /\ (Config (DockerGo.pLogin p) = EmptyString ->
      st_env s' "REGISTRY_AUTH_FILE" = st_env s "REGISTRY_AUTH_FILE")
  /\ (snd (DockerGo.Exec p s) = None ->
      st_env s' "CONTAINERS_STORAGE_CONF"
      = filepath_Join ["/tmp/buildah-plugin"; "storage.conf"]
      /\ (Config (DockerGo.pLogin p) <> EmptyString ->
          st_env s' "REGISTRY_AUTH_FILE"
          = filepath_Join [filepath_Join ["/tmp/buildah-plugin"; "auth"];
                           "auth.json"])).
Proof.
  intro s'. subst s'. unfold DockerGo.Exec. rewrite fst_returned.
  split; [| split; [| split]].
  - unfold DockerGo.Exec_body. unfold bind at 1. cbn [os_Setenv].
    match goal with
    | |- st_env (fst (?m ?s1)) _ = _ =>
        assert (T : touches ["CONTAINERS_STORAGE_CONF"; "REGISTRY_AUTH_FILE"] m)
          by (blocks; touch);
        rewrite (T s1 "STORAGE_DRIVER") by (simpl; intuition discriminate)
    end.
    reflexivity.
  - intros k H1 H2 H3. apply DockerGo_touches. simpl. intuition.
  - intro Hc.
    assert (T : touches ["STORAGE_DRIVER"; "CONTAINERS_STORAGE_CONF"]
                        (DockerGo.Exec_body p)).
    { blocks. rewrite Hc. cbn [isSet String.eqb negb]. touch. }
    apply T. simpl. intuition discriminate.
  - rewrite snd_returned_None.
    remember (DockerGo.Exec_body p s) as r eqn:Er.
    unfold DockerGo.Exec_body in Er. unfold bind at 1 in Er.
    cbn [os_Setenv] in Er. rewrite bind_call in Er.
    destruct (os_MkdirAll _ _ _) as [w1 [e1 |]]; cbn [fst snd] in Er;
      [subst r; discriminate |].
    rewrite bind_call in Er.
    destruct (ioutil_WriteFile _ _ _ _) as [w2 [e2 |]]; cbn [fst snd] in Er;
      [subst r; discriminate |].
    unfold bind at 1 in Er. cbn [os_Setenv] in Er.
    intro Hok. split.
    + subst r.
      match goal with
      | |- st_env (fst (?m ?s1)) _ = _ =>
          assert (T : touches ["REGISTRY_AUTH_FILE"] m) by (blocks; touch);
          rewrite (T s1 "CONTAINERS_STORAGE_CONF")
            by (simpl; intuition discriminate)
      end.
      reflexivity.
    + intro Hc.
      assert (Hs : isSet (Config (DockerGo.pLogin p)) = true).
      { unfold isSet. apply negb_true_iff. now apply String.eqb_neq. }
      rewrite Hs in Er. unfold DockerGo.createAuthConfig in Er.
      cbv zeta in Er. unfold bind at 1 2 in Er. unfold call at 1 in Er.
      cbn [st_world moved] in Er.
      destruct (os_MkdirAll _ _ _) as [w3 [e3 |]];
        [subst r; discriminate |].
      rewrite bind_call in Er.
      destruct (ioutil_WriteFile _ _ _ _) as [w4 [e4 |]]; cbn [fst snd] in Er;
        [subst r; discriminate |].
      unfold bind at 1 in Er. cbn [os_Setenv fmt_Print] in Er.
      subst r.
      match goal with
      | |- st_env (fst (?m ?s1)) _ = _ =>
          assert (T : touches [] m) by (blocks; touch);
          rewrite (T s1 "REGISTRY_AUTH_FILE") by (simpl; tauto)
      end.
      reflexivity.
Qed.

End ExecEnv.

Section ExecEnvVariant.

Context {R : Runtime}.

(** X6.  The variant writes three variables and no other; above all it
    never sets [REGISTRY_AUTH_FILE], also when it has written the auth
    file.  When [Exec] returns no error, the storage driver is [vfs] and
    the isolation is [rootless]. *)
Theorem Variant_Exec_environment (p : Variant.Plugin) (s : State) :
  let s' := fst (Variant.Exec p s) in
  (forall k,
     k <> "STORAGE_DRIVER" -> k <> "BUILDAH_ISOLATION" ->
     k <> "CONTAINERS_STORAGE_CONF" -> st_env s' k = st_env s k)
  /\ st_env s' "REGISTRY_AUTH_FILE" = st_env s "REGISTRY_AUTH_FILE"
  /\ (snd (Variant.Exec p s) = None ->
      st_env s' "STORAGE_DRIVER" = "vfs"
      /\ st_env s' "BUILDAH_ISOLATION" = "rootless").
Proof.
  intro s'. subst s'. unfold Variant.Exec. rewrite fst_returned.
  assert (F : forall k,
             k <> "STORAGE_DRIVER" -> k <> "BUILDAH_ISOLATION" ->
             k <> "CONTAINERS_STORAGE_CONF" ->
             st_env (fst (Variant.Exec_body p s)) k = st_env s k).
  { intros k H1 H2 H3. apply Variant_touches. simpl. intuition. }
  split; [exact F |]. split; [apply F; discriminate |].
  rewrite snd_returned_None.
  remember (Variant.Exec_body p s) as r eqn:Er.
  unfold Variant.Exec_body in Er. rewrite bind_call in Er.
  destruct (user_Current _) as [w0 [e0 | home]]; cbn [fst snd] in Er;
    [subst r; discriminate |].
  rewrite bind_call in Er.
  destruct (os_MkdirAll _ _ _) as [w1 [e1 |]]; cbn [fst snd] in Er;
    [subst r; discriminate |].
  rewrite bind_call in Er.
  destruct (ioutil_WriteFile _ _ _ _) as [w2 [e2 |]]; cbn [fst snd] in Er;
    [subst r; discriminate |].
  unfold bind at 1 2 3 in Er. cbn [os_Setenv] in Er.
  subst r. intros _.
  match goal with
  | |- st_env (fst (?m ?s1)) _ = _ /\ _ =>
      assert (T : touches [] m) by (blocks; touch);
      rewrite (T s1 "STORAGE_DRIVER"), (T s1 "BUILDAH_ISOLATION")
        by (simpl; tauto)
  end.
  split; reflexivity.
Qed.

End ExecEnvVariant.

(** ** The errors that [Exec] returns *)

Ltac raise_context :=
  do 3 eexists; split; [| reflexivity]; simpl; tauto.

Ltac raise tac :=
  repeat first
    [ match goal with |- raises _ (Variant.Exec_run _) => idtac end
    | apply raises_ret | apply raises_call | apply raises_Print
    | apply raises_Setenv | apply raises_environ | apply raises_time_Now
    | apply raises_returnErr; tac
    | apply raises_forEach; intros ? _
    | eapply raises_bind; [apply yields_any | | intros ? _]
    | match goal with
      | |- raises _ (match ?x with _ => _ end) => destruct x
      end
    | progress cbv zeta ].

Section ExecErrors.

Context {R : Runtime}.

(** X7.  Every error that [Exec] of docker.go returns is made by
    [fmt.Errorf] with the verb [%w]: its text begins with one of the six
    contexts of the file, and it wraps an error, which [errors.Unwrap]
    gives back. *)
Theorem DockerGo_Exec_errors_wrapped (p : DockerGo.Plugin) (s : State)
    (e : error) :
  snd (DockerGo.Exec p s) = Some e ->
  exists ctx rest err,
    In ctx contexts /\ e = ErrorfW (ctx +++ rest) err
    /\ Unwrap e = Some err /\ HasPrefix (Error e) ctx = true.
Proof.
  intro H.
  assert (Rz : raises (fun e => exists ctx rest err,
                         In ctx contexts /\ e = ErrorfW (ctx +++ rest) err)
                      (DockerGo.Exec_body p)).
  { blocks. raise raise_context. }
  unfold DockerGo.Exec, returned in H.
  specialize (Rz s e).
  destruct (DockerGo.Exec_body p s) as [s' [[] | e']]; simpl in *;
    [discriminate |].
  injection H as ->.
  destruct (Rz eq_refl) as (ctx & rest & err & Hin & ->).
  exists ctx, rest, err. repeat split; auto. apply HasPrefix_own.
Qed.

End ExecErrors.

Lemma DockerGo_Exec_errors_wrapped_witness :
  exists ctx rest err,
    In ctx contexts
    /\ ErrorfW ("command failed: buildah --storage-driver vfs pull a" +++ nl
                +++ "error: exit status 125") (LibError "exit status 125")
       = ErrorfW (ctx +++ rest) err
    /\ Unwrap (ErrorfW ("command failed: buildah --storage-driver vfs pull a"
                        +++ nl +++ "error: exit status 125")
                       (LibError "exit status 125")) = Some err
    /\ HasPrefix
         (Error (ErrorfW ("command failed: buildah --storage-driver vfs pull a"
                          +++ nl +++ "error: exit status 125")
                         (LibError "exit status 125"))) ctx = true.
Proof.
  apply (@DockerGo_Exec_errors_wrapped (scripted pullFails) samplePlugin
           (start pullFails (envOf []))).
  vm_compute. reflexivity.
Defined.

Section ExecErrorsVariant.

Context {R : Runtime}.

Lemma raises_weaken (A : Type) (P P' : error -> Prop) (m : M A) :
  raises P m -> (forall e, P e -> P' e) -> raises P' m.
Proof. intros H W s e E. apply W. now apply (H s). Qed.

Lemma Variant_run_raises (cmds : list Cmd) :
  raises (fun e => exists cmd w,
            In cmd cmds /\ tolerated (cmdArgs cmd) = false
            /\ snd (cmd_Run cmd w) = Some e)
         (Variant.Exec_run cmds).
Proof.
  unfold Variant.Exec_run. apply raises_forEach. intros cmd Hin.
  unfold trace.
  eapply raises_bind; [apply yields_any | apply raises_Print | intros _ _].
  eapply raises_bind with (Q := fun a => exists w, a = snd (cmd_Run cmd w)).
  - apply yields_call. intro w. now exists w.
  - apply raises_call.
  - intros a [w ->].
    destruct (snd (cmd_Run cmd w)) as [err |] eqn:E; [| apply raises_ret].
    destruct (Variant.isCommandPull (cmdArgs cmd)) eqn:E1;
      [apply raises_Print |].
    destruct (Variant.isCommandPrune (cmdArgs cmd)) eqn:E2;
      [apply raises_Print |].
    destruct (Variant.isCommandRmi (cmdArgs cmd)) eqn:E3;
      [apply raises_Print |].
    apply raises_returnErr. exists cmd, w. unfold tolerated.
    now rewrite E1, E2, E3.
Qed.

(** X8.  An error that [Exec] of the variant returns is of one of two
    kinds.  From the setup and the login it is a text alone, made with the
    verb [%s]: one of five contexts followed by the message of the error,
    which [errors.Unwrap] no longer gives back.  From the loop it is the
    very error of a command of the list, with no text added, and that
    command is none that the loop passes over. *)
Theorem Variant_Exec_errors (p : Variant.Plugin) (s : State) (e : error) :
  snd (Variant.Exec p s) = Some e ->
  (exists ctx err,
     In ctx variantContexts /\ e = Errorf (ctx +++ Error err)
     /\ Unwrap e = None)
  \/ (exists now env cmd w,
        In cmd (Variant.Exec_cmds now env
                  (Variant.set_Build p
                     (addProxyBuildArgs env (Variant.pBuild p))))
        /\ tolerated (cmdArgs cmd) = false
        /\ snd (cmd_Run cmd w) = Some e).
Proof.
  intro H.
  assert (Rz : raises
                 (fun e =>
                    (exists ctx err,
                       In ctx variantContexts /\ e = Errorf (ctx +++ Error err)
                       /\ Unwrap e = None)
                    \/ (exists now env cmd w,
                          In cmd (Variant.Exec_cmds now env
                                    (Variant.set_Build p
                                       (addProxyBuildArgs env
                                          (Variant.pBuild p))))
                          /\ tolerated (cmdArgs cmd) = false
                          /\ snd (cmd_Run cmd w) = Some e))
                 (Variant.Exec_body p)).
  { unfold Variant.Exec_body, Variant.Exec_login.
    raise ltac:(left; do 2 eexists; split; [| split; reflexivity];
                simpl; tauto).
    all: eapply raises_weaken; [apply Variant_run_raises |].
    all: intros e0 (cmd & w & Hin & Ht & Hr); right;
         do 4 eexists; repeat split; eassumption. }
  unfold Variant.Exec, returned in H.
  specialize (Rz s e).
  destruct (Variant.Exec_body p s) as [s' [[] | e']]; simpl in *;
    [discriminate |].
  injection H as ->. now apply Rz.
Qed.

End ExecErrorsVariant.

Lemma Variant_Exec_errors_witness :
  (exists ctx err,
     In ctx variantContexts
     /\ LibError "exit status 125" = Errorf (ctx +++ Error err)
     /\ Unwrap (LibError "exit status 125") = None)
  \/ (exists now env cmd w,
        In cmd (@Variant.Exec_cmds (scripted variantBuildFails) now env
                  (Variant.set_Build (variantPlugin false)
                     (@addProxyBuildArgs (scripted variantBuildFails) env
                        sampleBuild)))
        /\ tolerated (cmdArgs cmd) = false
        /\ snd (@cmd_Run (scripted variantBuildFails) cmd w)
           = Some (LibError "exit status 125")).
Proof.
  apply (@Variant_Exec_errors (scripted variantBuildFails)
           (variantPlugin false) (start variantBuildFails (envOf []))).
  vm_compute. reflexivity.
Defined.

(** ** Runs in which nothing fails *)

Ltac succeed :=
  repeat first
    [ match goal with |- raises _ (Variant.Exec_run _) => idtac end
    | apply raises_ret | apply raises_Print | apply raises_Setenv
    | apply raises_environ | apply raises_time_Now
    | apply raises_forEach; intros ? _
    | eapply raises_bind with (Q := fun a => a = None);
      [apply yields_call; intro; solve [auto] | apply raises_call | intros ? ->]
    | eapply raises_bind; [apply yields_any | | intros ? _]
    | progress cbv beta iota zeta
    | match goal with
      | |- raises _ (if ?x then _ else _) => destruct x
      end ].

Section ExecSucceeds.

Context {R : Runtime}.

(** X9.  When no call to the file system and no command fails, [Exec] of
    docker.go returns no error. *)
Theorem DockerGo_Exec_succeeds (p : DockerGo.Plugin) (s : State) :
  (forall path perm w, snd (os_MkdirAll path perm w) = None) ->
  (forall path data perm w, snd (ioutil_WriteFile path data perm w) = None) ->
  (forall cmd w, snd (cmd_Run cmd w) = None) ->
  snd (DockerGo.Exec p s) = None.
Proof.
  intros Hm Hw Hr.
  assert (Rz : raises (fun _ => False) (DockerGo.Exec_body p)).
  { blocks. succeed. }
  unfold DockerGo.Exec, returned. specialize (Rz s).
  destruct (DockerGo.Exec_body p s) as [s' [[] | e]]; simpl in *;
    [reflexivity | now elim (Rz e)].
Qed.

Lemma commandLogin_not_tolerated (login : Login) :
  tolerated (cmdArgs (Variant.commandLogin login)) = false.
Proof. reflexivity. Qed.

Lemma Variant_run_succeeds (cmds : list Cmd) :
  (forall cmd w, tolerated (cmdArgs cmd) = false ->
                 snd (cmd_Run cmd w) = None) ->
  raises (fun _ => False) (Variant.Exec_run cmds).
Proof.
  intro Hr. eapply raises_weaken; [apply Variant_run_raises |].
  intros e (cmd & w & _ & Ht & He). rewrite (Hr cmd w Ht) in He.
  discriminate.
Qed.

(** X10.  [Exec] of the variant returns no error when the user is known,
    no call to the file system fails, and no command fails other than
    those the loop passes over: failing pulls and a failing removal of the
    image do not make the run fail. *)
Theorem Variant_Exec_succeeds (p : Variant.Plugin) (s : State) :
  (forall w, exists home, snd (user_Current w) = inr home) ->
  (forall path perm w, snd (os_MkdirAll path perm w) = None) ->
  (forall path data perm w, snd (ioutil_WriteFile path data perm w) = None) ->
  (forall cmd w, tolerated (cmdArgs cmd) = false ->
                 snd (cmd_Run cmd w) = None) ->
  snd (Variant.Exec p s) = None.
Proof.
  intros Hu Hm Hw Hr.
  assert (Rz : raises (fun _ => False) (Variant.Exec_body p)).
  { unfold Variant.Exec_body, Variant.Exec_login.
    eapply raises_bind with (Q := fun a => exists home, a = inr home).
    - intros s0 a. unfold call. destruct (Hu (st_world s0)) as [home Hh].
      destruct (user_Current (st_world s0)) as [w u]; simpl in *.
      intro E. injection E as <-. now exists home.
    - apply raises_call.
    - intros a [home ->].
      assert (Hl : forall w, snd (cmd_Run (Variant.commandLogin
                                             (Variant.pLogin p)) w) = None)
        by (intro w; apply Hr; apply commandLogin_not_tolerated).
      succeed. all: now apply Variant_run_succeeds. }
  unfold Variant.Exec, returned. specialize (Rz s).
  destruct (Variant.Exec_body p s) as [s' [[] | e]]; simpl in *;
    [reflexivity | now elim (Rz e)].
Qed.

End ExecSucceeds.

Lemma DockerGo_Exec_succeeds_witness :
  snd (@DockerGo.Exec quiet samplePlugin (start _ (envOf []))) = None.
Proof.
  apply (@DockerGo_Exec_succeeds quiet samplePlugin (start _ (envOf [])));
    intros; reflexivity.
Defined.

Lemma Variant_Exec_succeeds_witness :
  snd (@Variant.Exec (scripted variantPullFails) (variantPlugin false)
         (start variantPullFails (envOf [])))
  = None.
Proof.
  apply (@Variant_Exec_succeeds (scripted variantPullFails)
           (variantPlugin false) (start variantPullFails (envOf []))).
  - intro w. exists "/home/build". reflexivity.
  - intros; reflexivity.
  - intros; reflexivity.
  - intros cmd w H. unfold tolerated in H.
    apply orb_false_iff in H. destruct H as [H _].
    apply orb_false_iff in H. destruct H as [H _].
    cbn. unfold variantPullFails. now rewrite H.
Defined.

(** ** What the loop of docker.go writes and runs *)

Section Echo.

Context {R : Runtime}.


End Echo.


(** ** Dry runs, and the commands the variant passes over *)

Section Lists.

Context {R : Runtime}.

(** X12.  With [Dryrun] set (in the variant [SkipPush]) the list of
    commands holds no push at all, and it has one command per tag: its
    length is three plus the cache images plus the tags, plus one with
    [Cleanup]. *)
Theorem dry_run_never_pushes (now : string) (env : Env)
    (p : DockerGo.Plugin) (q : Variant.Plugin) :
  DockerGo.Dryrun p = true ->
  Variant.SkipPush q = true ->
  (forall c, In c (DockerGo.Exec_cmds now env p) -> subcommand c <> "push")
  /\ (forall c, In c (Variant.Exec_cmds now env q) ->
                variantSubcommand c <> "push")
  /\ List.length (DockerGo.Exec_cmds now env p)
     = 3 + List.length (CacheFrom (DockerGo.pBuild p))
       + List.length (Tags (DockerGo.pBuild p))
       + (if DockerGo.Cleanup p then 1 else 0).
Proof.
  intros Hp Hq. split; [| split].
  - intros c. rewrite DockerGo_cmds_closed, Hp.
    rewrite !in_app_iff, in_map_iff, in_flat_map.
    intros [[<- | [<- | []]] | [(r & <- & _) | [[<- | []]
          | [(t & _ & [<- | []]) | H]]]]; try discriminate.
    + rewrite subcommand_commandBuild. discriminate.
    + destruct (DockerGo.Cleanup p); [| destruct H].
      destruct H as [<- | []]. discriminate.
  - intros c. rewrite Variant_cmds_closed, Hq.
    rewrite !in_app_iff, in_map_iff, in_flat_map.
    intros [[<- | [<- | []]] | [(r & <- & _) | [[<- | []]
          | [(t & _ & [<- | []]) | H]]]]; try discriminate.
    + destruct (Variant_commandBuild_args now env (Variant.pBuild q))
        as (more & E).
      unfold variantSubcommand. rewrite E. discriminate.
    + destruct (Variant.Cleanup q); [| destruct H].
      destruct H as [<- | []]. discriminate.
  - rewrite DockerGo_cmds_closed, Hp.
    rewrite !length_app, length_map. cbn [List.length].
    assert (L : forall tags,
               List.length
                 (flat_map (fun tag =>
                              [DockerGo.commandTag (DockerGo.pBuild p) tag])
                           tags)
               = List.length tags).
    { induction tags as [|t tags IH]; simpl; [reflexivity | now rewrite IH]. }
    rewrite L. destruct (DockerGo.Cleanup p); simpl; lia.
Qed.

(** X13.  In the list of commands of the variant, for a build not named
    [prune], the commands that the loop passes over when they fail are the
    pulls of the cache images and the removal of the image, and no
    other. *)
Theorem Variant_tolerated_commands (now : string) (env : Env)
    (p : Variant.Plugin) (c : Cmd) :
  Name (Variant.pBuild p) <> "prune" ->
  In c (Variant.Exec_cmds now env p) ->
  tolerated (cmdArgs c) = true
  <-> (exists img, In img (CacheFrom (Variant.pBuild p))
                   /\ c = Variant.commandPull img)
      \/ (Variant.Cleanup p = true
          /\ c = Variant.commandRmi (Name (Variant.pBuild p))).
Proof.
  intros Hn Hin.
  assert (NT : forall x,
             x = Variant.commandVersion \/ x = Variant.commandInfo
             \/ (exists now env build, x = Variant.commandBuild now env build)
             \/ (exists build tag, x = Variant.commandPush build tag)
             \/ (exists build tag,
                   x = Variant.commandTag build tag /\ Name build <> "prune") ->
             tolerated (cmdArgs x) = false).
  { intros x Hx. apply Variant_not_tolerated in Hx.
    destruct Hx as (H1 & H2 & H3). unfold tolerated. now rewrite H1, H2, H3. }
  split.
  - intro Ht. rewrite Variant_cmds_closed in Hin.
    rewrite !in_app_iff, in_map_iff, in_flat_map in Hin.
    destruct Hin as [[<- | [<- | []]] | [(r & <- & Hr) | [[<- | []]
                    | [(t & _ & Ht') | H]]]].
    + rewrite NT in Ht by auto. discriminate.
    + rewrite NT in Ht by auto. discriminate.
    + left. now exists r.
    + rewrite NT in Ht by (right; right; left; eauto). discriminate.
    + destruct Ht' as [<- | Ht'].
      * rewrite NT in Ht by (right; right; right; right; eauto).
        discriminate.
      * destruct (Variant.SkipPush p); [destruct Ht' |].
        destruct Ht' as [<- | []].
        rewrite NT in Ht by (right; right; right; left; eauto).
        discriminate.
    + right. destruct (Variant.Cleanup p); [| destruct H].
      destruct H as [<- | []]. auto.
  - intros [(img & _ & ->) | (_ & ->)]; reflexivity.
Qed.

End Lists.

Lemma dry_run_never_pushes_witness :
  (forall c,
     In c (@DockerGo.Exec_cmds quiet "2024-05-06T07:08:09Z" (envOf [])
             dryPlugin) ->
     subcommand c <> "push")
  /\ (forall c,
        In c (@Variant.Exec_cmds quiet "2024-05-06T07:08:09Z" (envOf [])
                (variantPlugin true)) ->
        variantSubcommand c <> "push")
  /\ List.length (@DockerGo.Exec_cmds quiet "2024-05-06T07:08:09Z" (envOf [])
                    dryPlugin)
     = 3 + 2 + 2 + 1.
Proof.
  exact (@dry_run_never_pushes quiet "2024-05-06T07:08:09Z" (envOf [])
           dryPlugin (variantPlugin true) eq_refl eq_refl).
Defined.

Lemma Variant_tolerated_commands_witness :
  tolerated (cmdArgs (Variant.commandPull "a")) = true
  <-> (exists img, In img ["a"; "b"] /\ Variant.commandPull "a"
                                       = Variant.commandPull img)
      \/ (true = true /\ Variant.commandPull "a" = Variant.commandRmi "img").
Proof.
  apply (@Variant_tolerated_commands quiet "2024-05-06T07:08:09Z" (envOf [])
           (variantPlugin false) (Variant.commandPull "a")).
  - discriminate.
  - cbn. tauto.
Defined.

(** X14.  The tests of the variant accept a command by its shape, and a
    command they accept has the token that the message prints: [pull] or
    [rmi] second with a third token after it, or [prune] third with a
    fourth token after it.  So the loop never reads [Args[2]] of a command
    too short to have it. *)
Theorem isCommand_shapes (args : list string) :
  (Variant.isCommandPull args = true
   <-> exists a0 a2 rest, args = a0 :: "pull" :: a2 :: rest)
  /\ (Variant.isCommandRmi args = true
      <-> exists a0 a2 rest, args = a0 :: "rmi" :: a2 :: rest)
  /\ (Variant.isCommandPrune args = true
      <-> exists a0 a1 a3 rest, args = a0 :: a1 :: "prune" :: a3 :: rest)
  /\ (Variant.isCommandPull args = true \/ Variant.isCommandRmi args = true ->
      nth_error args 2 = Some (Variant.index args 2)).
Proof.
  assert (P : forall word,
             ((2 <? List.length args)%nat
              && String.eqb (Variant.index args 1) word = true
              <-> exists a0 a2 rest, args = a0 :: word :: a2 :: rest)).
  { intro word. split.
    - intro H. apply andb_true_iff in H. destruct H as [Hl He].
      destruct args as [|a0 [|a1 [|a2 rest]]]; try discriminate.
      apply String.eqb_eq in He. cbn in He. subst a1. eauto.
    - intros (a0 & a2 & rest & ->). cbn. now rewrite String.eqb_refl. }
  split; [apply P |]. split; [apply P |]. split.
  - unfold Variant.isCommandPrune. split.
    + intro H. apply andb_true_iff in H. destruct H as [Hl He].
      destruct args as [|a0 [|a1 [|a2 [|a3 rest]]]]; try discriminate.
      apply String.eqb_eq in He. cbn in He. subst a2. eauto.
    + intros (a0 & a1 & a3 & rest & ->). reflexivity.
  - intros [H | H]; apply P in H; destruct H as (a0 & a2 & rest & ->);
      reflexivity.
Qed.
